(** * daytime: a time-of-day value with parsing, rendering, anchoring and codecs

    A shallow embedding of [daytime.go] (package [daytime]) together with the
    properties of its natural-language specification.

    Conventions of the embedding.
    - A Go [string] and a Go [[]byte] are both sequences of bytes; they are
      modelled by [string] (a list of 8-bit [ascii] characters), and the
      conversions [string(b)] and [[]byte(s)] are identities.
    - A Go [int] is modelled by [Z].  The package performs no arithmetic on
      its integers (only comparisons with constants), so no wrap-around
      occurs in the code under study; [strconv.Atoi] checks the 64-bit range.
    - A Go function returning [(T, error)] is modelled by a function to
      [T * option error], [None] being the [nil] error.
    - A pointer receiver [t *DayTime] is modelled by [option DayTime]:
      [None] is the [nil] pointer, [Some d] a pointer to a cell holding [d].
      A method writing through the receiver returns the new content.
    - A run-time panic (index out of range) is an outcome of its own, see
      [go].
    - The functions of the Go standard library and of [github.com/pkg/errors]
      that the package calls are modelled in modules named after their
      packages ([strings], [strconv], [regexp], [errors], [fmt], [time]);
      the package itself is the module [daytime]. *)

From Stdlib Require Import ZArith Lia Bool List Ascii String.
Import ListNotations.

Local Open Scope string_scope.
Local Open Scope Z_scope.

(** ** Outcomes of Go code that may panic *)

Inductive go (A : Type) : Type :=
| Returns (a : A)
| Panics (reason : string).

Arguments Returns {A} a.
Arguments Panics {A} reason.

(** The three kinds of effectful code below (code that may panic, code that
    reads the clock, methods that write through their receiver) are
    sequenced with one notation. *)
Class Monad (M : Type -> Type) : Type := {
  ret : forall {A : Type}, A -> M A;
  bind : forall {A B : Type}, M A -> (A -> M B) -> M B
}.

Declare Scope monad_scope.
Delimit Scope monad_scope with monad.
Notation "x <- c ;; k" := (bind c (fun x => k))
  (at level 61, c at next level, right associativity) : monad_scope.
Notation "' pat <- c ;; k" := (bind c (fun x => match x with pat => k end))
  (at level 61, pat pattern, c at next level, right associativity)
  : monad_scope.
Notation "c ;; k" := (bind c (fun _ => k))
  (at level 61, right associativity) : monad_scope.
Local Open Scope monad_scope.

Definition go_bind {A B : Type} (c : go A) (k : A -> go B) : go B :=
  match c with
  | Returns a => k a
  | Panics r => Panics r
  end.

#[global] Instance Monad_go : Monad go := {
  ret := @Returns;
  bind := @go_bind
}.

(** [values[i]] on a slice: out of range is a run-time panic. *)
Definition sliceIndex {A : Type} (l : list A) (i : nat) : go A :=
  match nth_error l i with
  | Some a => Returns a
  | None => Panics "index out of range"
  end.

(** ** Package [strings] *)

Module strings.

(** Membership of a byte in a cutset. *)
Fixpoint inCutset (cutset : string) (c : ascii) : bool :=
  match cutset with
  | EmptyString => false
  | String d rest => if Ascii.eqb c d then true else inCutset rest c
  end.

Fixpoint TrimLeft (s cutset : string) : string :=
  match s with
  | EmptyString => EmptyString
  | String c rest => if inCutset cutset c then TrimLeft rest cutset else s
  end.

Fixpoint TrimRight (s cutset : string) : string :=
  match s with
  | EmptyString => EmptyString
  | String c rest =>
      match TrimRight rest cutset with
      | EmptyString => if inCutset cutset c then EmptyString
                       else String c EmptyString
      | r => String c r
      end
  end.

(** [strings.Trim(s, cutset)]: all leading and trailing bytes of [s] that
    belong to [cutset] are removed (the cutsets used here are ASCII, so the
    library works byte by byte). *)
Definition Trim (s cutset : string) : string :=
  TrimRight (TrimLeft s cutset) cutset.

(** [strings.Split(s, sep)] for a one-byte separator: the pieces of [s]
    between the occurrences of [sep]; [n] occurrences give [n+1] pieces. *)
Fixpoint Split (s : string) (sep : ascii) : list string :=
  match s with
  | EmptyString => [EmptyString]
  | String c rest =>
      if Ascii.eqb c sep then EmptyString :: Split rest sep
      else match Split rest sep with
           | piece :: pieces => String c piece :: pieces
           | [] => [String c EmptyString]
           end
  end.

End strings.

(** ** Package [errors] ([github.com/pkg/errors]) and the error values *)

Inductive numErrorKind : Type := ErrSyntax | ErrRange.

(** The error values that can flow through the package: its three sentinel
    errors, the [*strconv.NumError] of [strconv.Atoi], and the wrapping of
    [errors.Wrap]. *)
Inductive error : Type :=
| ErrObjIsNil
| ErrInvalid
| ErrUnexpected
| NumError (func num : string) (kind : numErrorKind)
| Wrapped (cause : error) (message : string).

Module errors.

(** [errors.Wrap(err, message)]: [nil] stays [nil]; otherwise an error
    annotated with [message] whose cause is [err]. *)
Definition Wrap (err : option error) (message : string) : option error :=
  match err with
  | None => None
  | Some e => Some (Wrapped e message)
  end.

(** [errors.Cause]: the innermost error of a chain of wraps. *)
Fixpoint Cause (e : error) : error :=
  match e with
  | Wrapped c _ => Cause c
  | _ => e
  end.

Definition kind_eqb (a b : numErrorKind) : bool :=
  match a, b with
  | ErrSyntax, ErrSyntax | ErrRange, ErrRange => true
  | _, _ => false
  end.

Fixpoint eqb (a b : error) : bool :=
  match a, b with
  | ErrObjIsNil, ErrObjIsNil => true
  | ErrInvalid, ErrInvalid => true
  | ErrUnexpected, ErrUnexpected => true
  | NumError f n k, NumError f' n' k' =>
      String.eqb f f' && String.eqb n n' && kind_eqb k k'
  | Wrapped c m, Wrapped c' m' => eqb c c' && String.eqb m m'
  | _, _ => false
  end.

(** [errors.Is(err, target)]: some error of the chain of [err] is
    [target]. *)
Fixpoint Is (e target : error) : bool :=
  eqb e target ||
  match e with
  | Wrapped c _ => Is c target
  | _ => false
  end.

End errors.

(** ** Package [strconv] *)

Module strconv.

Definition digit (d : Z) : ascii := ascii_of_nat (48 + Z.to_nat d).

(** The decimal digits of a non-negative number, most significant first,
    pushed in front of [acc]. *)
Fixpoint digits (fuel : nat) (n : Z) (acc : string) : string :=
  match fuel with
  | O => acc
  | S fuel' =>
      let acc' := String (digit (n mod 10)) acc in
      if n <? 10 then acc' else digits fuel' (n / 10) acc'
  end.

(** A number has at most [log2 n + 1] decimal digits. *)
Definition formatUint (n : Z) : string :=
  digits (S (Z.to_nat (Z.log2 n))) n EmptyString.

(** [strconv.Itoa(i)]: decimal rendering, with a leading minus sign for a
    negative number. *)
Definition Itoa (i : Z) : string :=
  if i <? 0 then String "-"%char (formatUint (- i)) else formatUint i.

Definition isDigit (c : ascii) : bool :=
  (48 <=? nat_of_ascii c)%nat && (nat_of_ascii c <=? 57)%nat.

Definition digitValue (c : ascii) : Z := Z.of_nat (nat_of_ascii c) - 48.

(** What reading a string of decimal digits gives: a byte that is not a
    digit, a number that leaves the unsigned 64-bit range, or the number.
    The bytes are read from left to right and the first of the two failures
    that is met decides. *)
Inductive digitsResult : Type :=
| digitsSyntax
| digitsRange
| digitsValue (n : Z).

Definition maxUint : Z := 2 ^ 64 - 1.

Fixpoint parseDigits (s : string) (acc : Z) : digitsResult :=
  match s with
  | EmptyString => digitsValue acc
  | String c rest =>
      if isDigit c then
        let n := acc * 10 + digitValue c in
        if n >? maxUint then digitsRange else parseDigits rest n
      else digitsSyntax
  end.

Definition maxInt : Z := 2 ^ 63 - 1.
Definition minInt : Z := - 2 ^ 63.

Definition syntaxError (s : string) : Z * option error :=
  (0, Some (NumError "Atoi" s ErrSyntax)).

Definition rangeError (s : string) (bound : Z) : Z * option error :=
  (bound, Some (NumError "Atoi" s ErrRange)).

Definition checkRange (s : string) (n : Z) : Z * option error :=
  if n >? maxInt then rangeError s maxInt
  else if n <? minInt then rangeError s minInt
  else (n, None).

(** [strconv.Atoi(s)] on a 64-bit platform: an optional sign followed by
    at least one decimal digit; a syntax error gives 0, a value outside
    the [int] range gives the nearest bound, both with a [*NumError]. *)
Definition Atoi (s : string) : Z * option error :=
  match s with
  | EmptyString => syntaxError s
  | String c rest =>
      let body := if Ascii.eqb c "-"%char || Ascii.eqb c "+"%char then rest else s in
      match body with
      | EmptyString => syntaxError s
      | _ =>
          match parseDigits body 0 with
          | digitsSyntax => syntaxError s
          | digitsRange =>
              rangeError s (if Ascii.eqb c "-"%char then minInt else maxInt)
          | digitsValue n =>
              checkRange s (if Ascii.eqb c "-"%char then - n else n)
          end
      end
  end.

End strconv.

(** ** Package [fmt] *)

Module fmt.

(** [fmt.Sprintf(prefix + "%d", n)]. *)
Definition Sprintf_d (prefix : string) (n : Z) : string :=
  prefix ++ strconv.Itoa n.

(** [fmt.Sprintf(prefix + "%s" + suffix, s)]. *)
Definition Sprintf_s (prefix : string) (s : string) (suffix : string) : string :=
  prefix ++ s ++ suffix.

End fmt.

(** ** Package [regexp] *)

Module regexp.

(** The fragment of the RE2 syntax that the package's pattern uses. *)
Inductive Regexp : Type :=
| BeginText                      (* ^   (no multi-line flag) *)
| EndText                        (* $   (no multi-line flag: end of text) *)
| Digit                          (* \d  (ASCII digits only) *)
| Literal (c : ascii)
| Concat (r1 r2 : Regexp)
| Quest (r : Regexp)             (* r{0,1} *)
| Capture (r : Regexp).          (* ( r ) *)

(** Backtracking match of [r] at offset [pos], with [s] the text from that
    offset on; [k] continues with the offset and the text after the part
    that [r] consumed. *)
Fixpoint matchHere (r : Regexp) (pos : nat) (s : string)
         (k : nat -> string -> bool) : bool :=
  match r with
  | BeginText => Nat.eqb pos 0 && k pos s
  | EndText =>
      match s with
      | EmptyString => k pos s
      | String _ _ => false
      end
  | Digit =>
      match s with
      | EmptyString => false
      | String c rest => strconv.isDigit c && k (S pos) rest
      end
  | Literal a =>
      match s with
      | EmptyString => false
      | String c rest => Ascii.eqb c a && k (S pos) rest
      end
  | Concat r1 r2 =>
      matchHere r1 pos s (fun pos' s' => matchHere r2 pos' s' k)
  | Quest r' => matchHere r' pos s k || k pos s
  | Capture r' => matchHere r' pos s k
  end.

(** Is there a match starting at offset [pos] or later? *)
Fixpoint search (r : Regexp) (pos : nat) (s : string) : bool :=
  matchHere r pos s (fun _ _ => true) ||
  match s with
  | EmptyString => false
  | String _ rest => search r (S pos) rest
  end.

(** [re.MatchString(s)]: [s] contains a match of [re].  The list
    [re.FindAllStringSubmatch(s, -1)] has one entry per successive match,
    so it is empty exactly when [MatchString] is false. *)
Definition MatchString (re : Regexp) (s : string) : bool :=
  search re 0 s.

End regexp.

(** ** Package [time] *)

Module time.

(** A [Duration] is a number of nanoseconds. *)
Definition Duration : Type := Z.
Definition Nanosecond : Duration := 1.
Definition Second : Duration := 1000000000 * Nanosecond.
Definition Minute : Duration := 60 * Second.
Definition Hour : Duration := 60 * Minute.

(** A time zone; the model covers the zones with a fixed offset, given in
    seconds east of UTC. *)
Record Location : Type := FixedZone { offset : Z }.

Definition UTC : Location := FixedZone 0.

(** An instant, in nanoseconds since January 1, 1970 UTC, together with
    the zone in which it is displayed.  (The monotonic clock reading that
    [Now] attaches is not modelled: [Before] and [After] only use it when
    both instants carry one, and a result of [Date] carries none.) *)
Record Time : Type := mkTime {
  unixNano : Z;
  location : Location
}.

Definition secondsPerDay : Z := 86400.

(** Days since the epoch of a date of the proleptic Gregorian calendar. *)
Definition daysFromCivil (year month day : Z) : Z :=
  let y := if month <=? 2 then year - 1 else year in
  let era := y / 400 in
  let yoe := y - era * 400 in
  let mp := if month >? 2 then month - 3 else month + 9 in
  let doy := (153 * mp + 2) / 5 + day - 1 in
  let doe := yoe * 365 + yoe / 4 - yoe / 100 + doy in
  era * 146097 + doe - 719468.

(** The date of a number of days since the epoch. *)
Definition civilFromDays (days : Z) : Z * Z * Z :=
  let z := days + 719468 in
  let era := z / 146097 in
  let doe := z - era * 146097 in
  let yoe := (doe - doe / 1460 + doe / 36524 - doe / 146096) / 365 in
  let doy := doe - (365 * yoe + yoe / 4 - yoe / 100) in
  let mp := (5 * doy + 2) / 153 in
  let day := doy - (153 * mp + 2) / 5 + 1 in
  let month := if mp <? 10 then mp + 3 else mp - 9 in
  let year := yoe + era * 400 in
  (if month <=? 2 then year + 1 else year, month, day).

(** Seconds since the epoch, shifted to the wall clock of the zone. *)
Definition wallSeconds (t : Time) : Z :=
  unixNano t / Second + offset (location t).

(** [t.Date()]: year, month and day of [t] in its zone. *)
Definition DateOf (t : Time) : Z * Z * Z :=
  civilFromDays (wallSeconds t / secondsPerDay).

(** [t.Clock()]: hour, minute and second within the day of [t]. *)
Definition ClockOf (t : Time) : Z * Z * Z :=
  let s := wallSeconds t mod secondsPerDay in
  (s / 3600, (s mod 3600) / 60, s mod 60).

(** [t.Nanosecond()]. *)
Definition NanosecondOf (t : Time) : Z := unixNano t mod Second.

(** [time.Date(year, month, day, hour, min, sec, nsec, loc)]; values out
    of their usual range carry over, as they do in the library.  The
    arithmetic is on unbounded integers (the library works in 64 bits, which
    a time of day within its invariant on a date of the clock cannot
    leave), and the offset is the one of the fixed zone (the library looks
    the offset up at the wall time asked for). *)
Definition Date (year month day hour min sec nsec : Z) (loc : Location)
  : Time :=
  let wall := daysFromCivil year month day * secondsPerDay
              + hour * 3600 + min * 60 + sec in
  mkTime ((wall - offset loc) * Second + nsec) loc.

Definition Before (t u : Time) : bool := unixNano t <? unixNano u.
Definition After (t u : Time) : bool := unixNano t >? unixNano u.
Definition Add (t : Time) (d : Duration) : Time :=
  mkTime (unixNano t + d) (location t).

(** The ambient clock: the readings it will give, and how many have been
    taken so far.  Nothing is assumed on the readings (a wall clock may
    step backwards). *)
Record Clock : Type := mkClock {
  reading : nat -> Time;
  reads : nat
}.

(** [time.Now()]: takes the next reading. *)
Definition Now (c : Clock) : Time * Clock :=
  (reading c (reads c), mkClock (reading c) (S (reads c))).

End time.

(** Code that reads the ambient clock. *)
Definition clocked (A : Type) : Type := time.Clock -> A * time.Clock.

Definition clocked_ret {A : Type} (a : A) : clocked A := fun c => (a, c).

Definition clocked_bind {A B : Type} (m : clocked A) (k : A -> clocked B)
  : clocked B :=
  fun c => let (a, c') := m c in k a c'.

#[global] Instance Monad_clocked : Monad clocked := {
  ret := @clocked_ret;
  bind := @clocked_bind
}.

(** ** Interface values *)

(** A value of interface type ([any], [driver.Value]): a byte slice, a
    string, or a value of another dynamic type, of which only the name that
    the verb [%T] prints matters here. *)
Inductive any : Type :=
| AnyBytes (b : string)
| AnyString (s : string)
| AnyOther (typeName : string).

(** * Package [daytime] *)

Module daytime.

(** ** The value type and its constructor *)

Record DayTime : Type := mkDayTime {
  hour : Z;
  minute : Z;
  second : Z
}.

(** [DayTime{}], the zero value of the struct. *)
Definition zeroDayTime : DayTime := mkDayTime 0 0 0.

Definition DefaultTime : string := "00:00".

Definition New (hour minute second : Z) : DayTime * option error :=
  if (hour <? 0) || (hour >? 23) then
    (zeroDayTime,
     errors.Wrap (Some ErrInvalid) (fmt.Sprintf_d "value of hour is " hour))
  else if (minute <? 0) || (minute >? 59) then
    (zeroDayTime,
     errors.Wrap (Some ErrInvalid) (fmt.Sprintf_d "value of minute is " minute))
  else if (second <? 0) || (second >? 59) then
    (zeroDayTime,
     errors.Wrap (Some ErrInvalid) (fmt.Sprintf_d "value of second is " second))
  else
    (mkDayTime hour minute second, None).

(** ** Parsing and rendering *)

Definition Day : time.Duration := 24 * time.Hour.

(** [^\d\d:\d\d(:\d\d){0,1}$] *)
Definition daytimeRegex : regexp.Regexp :=
  let d := regexp.Digit in
  let colon := regexp.Literal ":"%char in
  let cat := regexp.Concat in
  cat regexp.BeginText
   (cat d (cat d (cat colon (cat d (cat d
     (cat (regexp.Quest (regexp.Capture (cat colon (cat d d))))
          regexp.EndText)))))).

Definition newline : string := String (ascii_of_nat 10) EmptyString.

(** The cutset [" \t"]. *)
Definition spaceTab : string :=
  String " " (String (ascii_of_nat 9) EmptyString).

Definition Parse (value : string) : go (DayTime * option error) :=
  let value := strings.Trim value spaceTab in
  if negb (regexp.MatchString daytimeRegex value) then
    ret (zeroDayTime,
         errors.Wrap (Some ErrInvalid) (fmt.Sprintf_s "value '" value "'"))
  else
    let values := strings.Split value ":"%char in
    v0 <- sliceIndex values 0 ;;
    let (hour, err) := strconv.Atoi v0 in
    match err with
    | Some _ => ret (zeroDayTime, errors.Wrap err "hour")
    | None =>
        v1 <- sliceIndex values 1 ;;
        let (minute, err) := strconv.Atoi v1 in
        match err with
        | Some _ => ret (zeroDayTime, errors.Wrap err "minute")
        | None =>
            '(second, err) <-
              (if (2 <? List.length values)%nat
               then v2 <- sliceIndex values 2 ;; ret (strconv.Atoi v2)
               else ret (0, err)) ;;
            match err with
            | Some _ => ret (zeroDayTime, errors.Wrap err "second")
            | None => ret (New hour minute second)
            end
        end
    end.

(** The method [String] of a [DayTime] pointer. *)
Definition String (t : option DayTime) : string :=
  match t with
  | None => DefaultTime
  | Some t =>
      let hour := strconv.Itoa (hour t) in
      let hour := if Nat.eqb (String.length hour) 1 then "0" ++ hour else hour in
      let minute := strconv.Itoa (minute t) in
      let minute :=
        if Nat.eqb (String.length minute) 1 then "0" ++ minute else minute in
      let value := hour ++ ":" ++ minute in
      if second t =? 0 then value
      else
        let second := strconv.Itoa (second t) in
        let second :=
          if Nat.eqb (String.length second) 1 then "0" ++ second else second in
        value ++ ":" ++ second
  end.

(** ** Temporal anchoring *)

Definition Time (t : option DayTime) : clocked time.Time :=
  now <- time.Now ;;
  let '(year, month, day) := time.DateOf now in
  let '(hour, minute, second) :=
    match t with
    | Some t => (hour t, minute t, second t)
    | None => (0, 0, 0)
    end in
  ret (time.Date year month day hour minute second 0 (time.location now)).

Definition InTheNearFuture (t : option DayTime) : clocked time.Time :=
  now <- time.Now ;;
  datetime <- Time t ;;
  let datetime :=
    if time.Before datetime now then time.Add datetime Day else datetime in
  ret datetime.

Definition InTheRecentPast (t : option DayTime) : clocked time.Time :=
  now <- time.Now ;;
  datetime <- Time t ;;
  let datetime :=
    if time.After datetime now then time.Add datetime (- Day) else datetime in
  ret datetime.

(** ** Serialization adapters *)

(** The memory that a method with receiver [t] can change: the cell that
    [t] points to ([None] when [t] is [nil]) and the standard output. *)
Record Store : Type := mkStore {
  target : option DayTime;
  stdout : list string
}.

Definition method (A : Type) : Type := Store -> go (A * Store).

Definition method_ret {A : Type} (a : A) : method A :=
  fun st => Returns (a, st).

Definition method_bind {A B : Type} (m : method A) (k : A -> method B)
  : method B :=
  fun st =>
    match m st with
    | Returns (a, st') => k a st'
    | Panics r => Panics r
    end.

#[global] Instance Monad_method : Monad method := {
  ret := @method_ret;
  bind := @method_bind
}.

(** [t == nil] *)
Definition receiverIsNil : method bool :=
  fun st =>
    Returns (match target st with None => true | Some _ => false end, st).

(** [*t = value]; writing through a [nil] pointer panics. *)
Definition assign (value : DayTime) : method unit :=
  fun st =>
    match target st with
    | None => Panics "invalid memory address or nil pointer dereference"
    | Some _ => Returns (tt, mkStore (Some value) (stdout st))
    end.

(** A call of a function that does not touch the store. *)
Definition call {A : Type} (c : go A) : method A :=
  fun st =>
    match c with
    | Returns a => Returns (a, st)
    | Panics r => Panics r
    end.

(** [fmt.Printf(prefix + "%s" + suffix, s)] *)
Definition Printf_s (prefix s suffix : string) : method unit :=
  fun st =>
    Returns (tt, mkStore (target st)
                         (stdout st ++ [fmt.Sprintf_s prefix s suffix])).

Definition bytesOfString (s : string) : string := s.
Definition stringOfBytes (b : string) : string := b.

Definition MarshalBinary (t : option DayTime) : string * option error :=
  (bytesOfString (String t), None).

Definition UnmarshalBinary (data : string) : method (option error) :=
  isNil <- receiverIsNil ;;
  if isNil then ret (Some ErrObjIsNil)
  else
    '(value, err) <- call (Parse (stringOfBytes data)) ;;
    match err with
    | Some _ => ret (errors.Wrap err "parse")
    | None => assign value ;; ret None
    end.

Definition MarshalText (t : option DayTime) : string * option error :=
  (bytesOfString (String t), None).

Definition UnmarshalText (data : string) : method (option error) :=
  isNil <- receiverIsNil ;;
  if isNil then ret (Some ErrObjIsNil)
  else
    '(value, err) <- call (Parse (stringOfBytes data)) ;;
    match err with
    | Some _ => ret (errors.Wrap err "parse")
    | None => assign value ;; ret None
    end.

Definition MarshalJSON (t : option DayTime) : string * option error :=
  (bytesOfString (String t), None).

Definition UnmarshalJSON (data : string) : method (option error) :=
  isNil <- receiverIsNil ;;
  if isNil then ret (Some ErrObjIsNil)
  else
    '(value, err) <- call (Parse (stringOfBytes data)) ;;
    match err with
    | Some _ => ret (errors.Wrap err "parse")
    | None => assign value ;; ret None
    end.

Definition MarshalCSV (t : option DayTime) : string * option error :=
  (String t, None).

Definition UnmarshalCSV (str : string) : method (option error) :=
  isNil <- receiverIsNil ;;
  if isNil then ret (Some ErrObjIsNil)
  else
    '(value, err) <- call (Parse str) ;;
    match err with
    | Some _ => ret (errors.Wrap err "parse")
    | None => assign value ;; ret None
    end.

Definition Scan (src : any) : method (option error) :=
  isNil <- receiverIsNil ;;
  if isNil then ret (Some ErrObjIsNil)
  else
    let afterSwitch (str : string) : method (option error) :=
      '(value, err) <- call (Parse str) ;;
      match err with
      | Some _ => ret (errors.Wrap err "parse")
      | None => assign value ;; ret None
      end in
    match src with
    | AnyBytes src =>
        let str := stringOfBytes src in
        Printf_s "str(bytes) = '" str ("'" ++ newline) ;;
        afterSwitch str
    | AnyString src =>
        let str := src in
        afterSwitch str
    | AnyOther typeName =>
        ret (errors.Wrap (Some ErrUnexpected)
                         (fmt.Sprintf_s "type of value '" typeName "'"))
    end.

Definition Value (t : option DayTime) : any * option error :=
  (AnyString (String t), None).

End daytime.

(** * The vocabulary of the specification *)

(** The invariant of the data model: a time of day. *)
Definition validTriple (h m s : Z) : Prop :=
  0 <= h <= 23 /\ 0 <= m <= 59 /\ 0 <= s <= 59.

Definition validDayTime (t : daytime.DayTime) : Prop :=
  validTriple (daytime.hour t) (daytime.minute t) (daytime.second t).

(** A number below 100 written with exactly two decimal digits. *)
Definition twoDigits (n : Z) : string :=
  String (strconv.digit (n / 10)) (String (strconv.digit (n mod 10)) "").

(** The canonical text [HH:MM], or [HH:MM:SS] when the second is not 0. *)
Definition canonicalText (h m s : Z) : string :=
  twoDigits h ++ ":" ++ twoDigits m ++
  (if s =? 0 then "" else ":" ++ twoDigits s).

(** The number that two decimal digits denote. *)
Definition twoDigitValue (a b : ascii) : Z :=
  10 * strconv.digitValue a + strconv.digitValue b.

(** The texts [ab:cd] and [ab:cd:ef]. *)
Definition textHM (a b c d : ascii) : string :=
  String a (String b (String ":" (String c (String d "")))).

Definition textHMS (a b c d e f : ascii) : string :=
  String a (String b (String ":" (String c (String d
    (String ":" (String e (String f ""))))))).

(** Two digits, a colon, two digits, and optionally a colon and two more
    digits. *)
Definition hasDaytimeShape (s : string) : bool :=
  match list_ascii_of_string s with
  | [a; b; p; c; d] =>
      strconv.isDigit a && strconv.isDigit b && Ascii.eqb p ":" &&
      strconv.isDigit c && strconv.isDigit d
  | [a; b; p; c; d; q; e; f] =>
      strconv.isDigit a && strconv.isDigit b && Ascii.eqb p ":" &&
      strconv.isDigit c && strconv.isDigit d && Ascii.eqb q ":" &&
      strconv.isDigit e && strconv.isDigit f
  | _ => false
  end.

Definition isSpaceOrTab (c : ascii) : bool :=
  Ascii.eqb c " " || Ascii.eqb c (ascii_of_nat 9).

Fixpoint allSpaceOrTab (s : string) : bool :=
  match s with
  | EmptyString => true
  | String c rest => isSpaceOrTab c && allSpaceOrTab rest
  end.

Definition firstChar (s : string) : option ascii :=
  match s with
  | EmptyString => None
  | String c _ => Some c
  end.

Fixpoint lastChar (s : string) : option ascii :=
  match s with
  | EmptyString => None
  | String c EmptyString => Some c
  | String _ rest => lastChar rest
  end.

Definition notSpaceOrTab (c : option ascii) : Prop :=
  match c with
  | None => True
  | Some c => isSpaceOrTab c = false
  end.

(** [t] is [s] without its leading and trailing spaces and tabs: what is
    cut off on either side consists of spaces and tabs only, and what
    remains neither starts nor ends with one. *)
Definition trimmedOf (s t : string) : Prop :=
  exists l r,
    s = l ++ t ++ r /\
    allSpaceOrTab l = true /\ allSpaceOrTab r = true /\
    notSpaceOrTab (firstChar t) /\ notSpaceOrTab (lastChar t).

(** What the specification asks of a decode operation reading [text]:
    on a nil target it reports [ErrObjIsNil] and touches nothing, whatever
    the text; otherwise [Parse] decides: its error comes back wrapped with
    the context ["parse"] and the target keeps its content, or the target
    receives the parsed value as a whole. *)
Definition decodeContract
    (decode : daytime.method (option error)) (text : string) : Prop :=
  forall st : daytime.Store,
    match daytime.target st with
    | None => decode st = Returns (Some ErrObjIsNil, st)
    | Some d =>
        exists value err,
          daytime.Parse text = Returns (value, err) /\
          match err with
          | Some e =>
              exists st',
                decode st = Returns (Some (Wrapped e "parse"), st') /\
                daytime.target st' = Some d
          | None =>
              exists st',
                decode st = Returns (None, st') /\
                daytime.target st' = Some value
          end
    end.

(** The run of a decode operation on [text] that leaves [out] on the
    standard output once the receiver is known not to be nil. *)
Definition decodeRun (text : string) (out : list string) (st : daytime.Store)
  : go (option error * daytime.Store) :=
  match daytime.target st with
  | None => Returns (Some ErrObjIsNil, st)
  | Some d =>
      match daytime.Parse text with
      | Returns (_, Some e) =>
          Returns (Some (Wrapped e "parse"), daytime.mkStore (Some d) out)
      | Returns (value, None) =>
          Returns (None, daytime.mkStore (Some value) out)
      | Panics r => Panics r
      end
  end.

(** The line that [Scan] prints when it is given bytes. *)
Definition scanTrace (text : string) : string :=
  "str(bytes) = '" ++ text ++ "'" ++ daytime.newline.

(** The date of [now] at the time of day [t], in the zone of [now]; a nil
    [t] stands for [00:00:00]. *)
Definition onTheDateOf (now : time.Time) (t : option daytime.DayTime)
  : time.Time :=
  let '(year, month, day) := time.DateOf now in
  let '(hour, minute, second) :=
    match t with
    | Some t => (daytime.hour t, daytime.minute t, daytime.second t)
    | None => (0, 0, 0)
    end in
  time.Date year month day hour minute second 0 (time.location now).



(** Two clocks in UTC.  The first reads a tenth of a second past midnight
    of October 31, 2026 every time; the second reads the same at first and
    then, set back by two tenths of a second, a tenth of a second before
    that midnight. *)
Definition justAfterMidnight : time.Time :=
  time.mkTime 1793404800100000000 time.UTC.

Definition justBeforeMidnight : time.Time :=
  time.mkTime 1793404799900000000 time.UTC.

Definition steadyClock : time.Clock :=
  time.mkClock (fun _ => justAfterMidnight) 0.


(** The time of day that a receiver stands for; a nil receiver stands for
    [00:00:00]. *)
Definition timeOfDay (t : option daytime.DayTime) : Z * Z * Z :=
  match t with
  | Some t => (daytime.hour t, daytime.minute t, daytime.second t)
  | None => (0, 0, 0)
  end.

(** A receiver that is nil or points to a time of day. *)
Definition validReceiver (t : option daytime.DayTime) : Prop :=
  match t with
  | Some t => validDayTime t
  | None => True
  end.

(** The instant, in nanoseconds, at which the calendar date of [now]
    begins in the zone of [now]. *)
Definition startOfDay (now : time.Time) : Z :=
  (time.wallSeconds now / time.secondsPerDay * time.secondsPerDay
   - time.offset (time.location now)) * time.Second.

(** The double quote, and a text between double quotes (the bytes of a JSON
    string literal). *)
Definition doubleQuote : ascii := ascii_of_nat 34.

Definition quoted (s : string) : string :=
  String doubleQuote (s ++ String doubleQuote "").

(** A clock in UTC that passes midnight between its first and its second
    reading. *)
Definition passingMidnightClock : time.Clock :=
  time.mkClock (fun n => match n with
                         | O => justBeforeMidnight
                         | S _ => justAfterMidnight
                         end) 0.

(** Unfolds one step of a method on a store. *)
Ltac run_method :=
  cbn [bind ret daytime.Monad_method];
  unfold daytime.method_bind, daytime.method_ret, daytime.receiverIsNil,
    daytime.call, daytime.assign, daytime.Printf_s, daytime.stringOfBytes;
  cbn [daytime.target daytime.stdout].

(** * Properties of the library models *)

Section Characters.

Lemma inCutset_spaceTab (c : ascii) :
  strings.inCutset daytime.spaceTab c = isSpaceOrTab c.
Proof.
  unfold isSpaceOrTab. cbn.
  destruct (Ascii.eqb c " "); cbn; [reflexivity|].
  destruct (Ascii.eqb c _); reflexivity.
Qed.

Lemma isDigit_notSpaceOrTab (c : ascii) :
  strconv.isDigit c = true -> isSpaceOrTab c = false.
Proof.
  destruct c as [[] [] [] [] [] [] [] []]; vm_compute; congruence.
Qed.

Lemma isDigit_notColon (c : ascii) :
  strconv.isDigit c = true -> Ascii.eqb c ":" = false.
Proof.
  destruct c as [[] [] [] [] [] [] [] []]; vm_compute; congruence.
Qed.

Lemma digit_cases (d : Z) :
  0 <= d <= 9 ->
  d = 0 \/ d = 1 \/ d = 2 \/ d = 3 \/ d = 4 \/
  d = 5 \/ d = 6 \/ d = 7 \/ d = 8 \/ d = 9.
Proof. lia. Qed.

Lemma isDigit_digit (d : Z) :
  0 <= d <= 9 -> strconv.isDigit (strconv.digit d) = true.
Proof.
  intros H. destruct (digit_cases d H) as
    [-> | [-> | [-> | [-> | [-> | [-> | [-> | [-> | [-> | ->]]]]]]]]];
    reflexivity.
Qed.

Lemma digitValue_digit (d : Z) :
  0 <= d <= 9 -> strconv.digitValue (strconv.digit d) = d.
Proof.
  intros H. destruct (digit_cases d H) as
    [-> | [-> | [-> | [-> | [-> | [-> | [-> | [-> | [-> | ->]]]]]]]]];
    reflexivity.
Qed.

Lemma digitValue_range (c : ascii) :
  strconv.isDigit c = true -> 0 <= strconv.digitValue c <= 9.
Proof.
  unfold strconv.isDigit, strconv.digitValue. intros H.
  apply andb_true_iff in H. destruct H as [H1 H2].
  apply Nat.leb_le in H1. apply Nat.leb_le in H2. lia.
Qed.

End Characters.

Section Itoa.

Lemma Itoa_one_digit (n : Z) :
  0 <= n <= 9 -> strconv.Itoa n = String (strconv.digit n) "".
Proof.
  intros H. unfold strconv.Itoa, strconv.formatUint.
  replace (n <? 0) with false by (symmetry; apply Z.ltb_ge; lia).
  cbn [strconv.digits].
  replace (n <? 10) with true by (symmetry; apply Z.ltb_lt; lia).
  rewrite Z.mod_small by lia. reflexivity.
Qed.

Lemma Itoa_two_digits (n : Z) :
  10 <= n <= 99 -> strconv.Itoa n = twoDigits n.
Proof.
  intros H. unfold strconv.Itoa, strconv.formatUint, twoDigits.
  replace (n <? 0) with false by (symmetry; apply Z.ltb_ge; lia).
  assert (Hlog : 3 <= Z.log2 n).
  { change 3 with (Z.log2 8). apply Z.log2_le_mono. lia. }
  destruct (Z.to_nat (Z.log2 n)) as [|k] eqn:Hk; [lia|].
  cbn [strconv.digits].
  replace (n <? 10) with false by (symmetry; apply Z.ltb_ge; lia).
  assert (Hq : 1 <= n / 10 <= 9)
    by (Z.to_euclidean_division_equations; lia).
  replace (n / 10 <? 10) with true by (symmetry; apply Z.ltb_lt; lia).
  rewrite (Z.mod_small (n / 10)) by lia. reflexivity.
Qed.

(** The padding step of [String]: a rendering of length 1 gets a leading
    zero. *)
Lemma padded_Itoa (n : Z) :
  0 <= n <= 99 ->
  (if Nat.eqb (String.length (strconv.Itoa n)) 1
   then "0" ++ strconv.Itoa n else strconv.Itoa n) = twoDigits n.
Proof.
  intros H. destruct (Z_lt_ge_dec n 10) as [Hlt | Hge].
  - rewrite Itoa_one_digit by lia. cbn. unfold twoDigits.
    rewrite Z.div_small, Z.mod_small by lia. reflexivity.
  - rewrite Itoa_two_digits by lia. reflexivity.
Qed.

End Itoa.

Section Strings.

Lemma append_empty_r (s : string) : s ++ "" = s.
Proof. induction s as [|c s IH]; cbn; [reflexivity | now rewrite IH]. Qed.

Lemma append_assoc (s t u : string) : (s ++ t) ++ u = s ++ t ++ u.
Proof. induction s as [|c s IH]; cbn; [reflexivity | now rewrite IH]. Qed.

Lemma TrimLeft_spaceTab (s : string) :
  exists l,
    s = l ++ strings.TrimLeft s daytime.spaceTab /\
    allSpaceOrTab l = true /\
    notSpaceOrTab (firstChar (strings.TrimLeft s daytime.spaceTab)).
Proof.
  induction s as [|c s IH].
  - exists "". cbn. auto.
  - cbn [strings.TrimLeft]. rewrite inCutset_spaceTab.
    destruct (isSpaceOrTab c) eqn:Hc.
    + destruct IH as (l & Hs & Hl & Hf).
      exists (String c l). cbn. rewrite Hc, Hl, <- Hs. auto.
    + exists "". cbn. auto.
Qed.

Lemma TrimRight_spaceTab (s : string) :
  exists r,
    s = strings.TrimRight s daytime.spaceTab ++ r /\
    allSpaceOrTab r = true /\
    notSpaceOrTab (lastChar (strings.TrimRight s daytime.spaceTab)) /\
    (notSpaceOrTab (firstChar s) ->
     notSpaceOrTab (firstChar (strings.TrimRight s daytime.spaceTab))).
Proof.
  induction s as [|c s IH].
  - exists "". cbn. auto.
  - destruct IH as (r & Hs & Hr & Hlast & _).
    cbn [strings.TrimRight]. rewrite inCutset_spaceTab.
    destruct (strings.TrimRight s daytime.spaceTab) as [|c' t] eqn:Ht.
    + cbn in Hs. subst r.
      destruct (isSpaceOrTab c) eqn:Hc.
      * exists (String c s). cbn. rewrite Hc, Hr. auto.
      * exists s. cbn. auto.
    + exists r. split; [cbn; f_equal; exact Hs|]. repeat split; auto.
Qed.

(** [strings.Trim] with the cutset of [Parse] removes the leading and
    trailing spaces and tabs, and nothing else. *)
Lemma Trim_spaceTab (s : string) :
  trimmedOf s (strings.Trim s daytime.spaceTab).
Proof.
  unfold strings.Trim, trimmedOf.
  destruct (TrimLeft_spaceTab s) as (l & Hs & Hl & Hfirst).
  destruct (TrimRight_spaceTab (strings.TrimLeft s daytime.spaceTab))
    as (r & Ht & Hr & Hlast & Hkeep).
  exists l, r. repeat split; auto.
  rewrite <- Ht. exact Hs.
Qed.

(** A text that neither starts nor ends with a space or a tab is left as
    it is. *)
Lemma TrimLeft_id (s : string) :
  notSpaceOrTab (firstChar s) -> strings.TrimLeft s daytime.spaceTab = s.
Proof.
  destruct s as [|c s]; [reflexivity|]. cbn [firstChar notSpaceOrTab].
  intros Hc. cbn [strings.TrimLeft]. now rewrite inCutset_spaceTab, Hc.
Qed.

Lemma TrimRight_id (s : string) :
  notSpaceOrTab (lastChar s) -> strings.TrimRight s daytime.spaceTab = s.
Proof.
  induction s as [|c s IH]; [reflexivity|].
  intros Hlast. cbn [strings.TrimRight]. destruct s as [|c' s'].
  - cbn [strings.TrimRight lastChar notSpaceOrTab] in *.
    now rewrite inCutset_spaceTab, Hlast.
  - rewrite IH by exact Hlast. reflexivity.
Qed.

Lemma Trim_id (s : string) :
  notSpaceOrTab (firstChar s) -> notSpaceOrTab (lastChar s) ->
  strings.Trim s daytime.spaceTab = s.
Proof.
  intros Hf Hl. unfold strings.Trim.
  rewrite TrimLeft_id by exact Hf. now apply TrimRight_id.
Qed.

End Strings.

Section Regexp.

(** A pattern that starts with [^] matches at offset 0 only. *)
Lemma search_BeginText (r : regexp.Regexp) (s : string) :
  forall pos, pos <> 0%nat ->
  regexp.search (regexp.Concat regexp.BeginText r) pos s = false.
Proof.
  induction s as [|c s IH]; intros pos Hpos; cbn;
    destruct (Nat.eqb_spec pos 0); try contradiction; cbn.
  - reflexivity.
  - apply IH. discriminate.
Qed.

Lemma MatchString_anchored (r : regexp.Regexp) (s : string) :
  regexp.MatchString (regexp.Concat regexp.BeginText r) s =
  regexp.matchHere r 0 s (fun _ _ => true).
Proof.
  unfold regexp.MatchString. destruct s as [|c s]; cbn.
  - now rewrite orb_false_r.
  - rewrite (search_BeginText r s 1) by discriminate.
    now rewrite orb_false_r.
Qed.

(** The pattern of the package accepts exactly the texts of the shape
    [dd:dd] or [dd:dd:dd]. *)
Lemma MatchString_daytimeRegex (s : string) :
  regexp.MatchString daytime.daytimeRegex s = hasDaytimeShape s.
Proof.
  unfold daytime.daytimeRegex. rewrite MatchString_anchored.
  unfold hasDaytimeShape.
  do 9 (destruct s as [|? s]; cbn;
        [repeat match goal with
                | |- context [strconv.isDigit ?c] =>
                    destruct (strconv.isDigit c)
                | |- context [Ascii.eqb ?c ?d] => destruct (Ascii.eqb c d)
                end; reflexivity|]).
  repeat match goal with
         | |- context [strconv.isDigit ?c] => destruct (strconv.isDigit c)
         | |- context [Ascii.eqb ?c ?d] => destruct (Ascii.eqb c d)
         end; reflexivity.
Qed.

End Regexp.

Section Parsing.

Lemma isDigit_notSign (c : ascii) :
  strconv.isDigit c = true ->
  Ascii.eqb c "-" = false /\ Ascii.eqb c "+" = false.
Proof.
  destruct c as [[] [] [] [] [] [] [] []]; vm_compute; intuition congruence.
Qed.

Lemma twoDigitValue_range (a b : ascii) :
  strconv.isDigit a = true -> strconv.isDigit b = true ->
  0 <= twoDigitValue a b <= 99.
Proof.
  intros Ha Hb. unfold twoDigitValue.
  pose proof (digitValue_range a Ha). pose proof (digitValue_range b Hb). lia.
Qed.

(** [strconv.Atoi] on two decimal digits cannot fail. *)
Lemma Atoi_two_digits (a b : ascii) :
  strconv.isDigit a = true -> strconv.isDigit b = true ->
  strconv.Atoi (String a (String b "")) = (twoDigitValue a b, None).
Proof.
  intros Ha Hb. pose proof (twoDigitValue_range a b Ha Hb) as Hr.
  destruct (isDigit_notSign a Ha) as [Hminus Hplus].
  unfold strconv.Atoi. rewrite Hminus, Hplus. cbn [orb].
  pose proof (digitValue_range a Ha) as Hra.
  pose proof (digitValue_range b Hb) as Hrb.
  cbn [strconv.parseDigits]. rewrite Ha, Hb. cbv zeta.
  unfold strconv.maxUint.
  destruct (Z.gtb_spec (0 * 10 + strconv.digitValue a) (2 ^ 64 - 1)); [lia|].
  destruct (Z.gtb_spec
              ((0 * 10 + strconv.digitValue a) * 10 + strconv.digitValue b)
              (2 ^ 64 - 1)); [lia|].
  replace ((0 * 10 + strconv.digitValue a) * 10 + strconv.digitValue b)
    with (twoDigitValue a b) by (unfold twoDigitValue; lia).
  unfold strconv.checkRange, strconv.maxInt, strconv.minInt.
  destruct (Z.gtb_spec (twoDigitValue a b) (2 ^ 63 - 1)); [lia|].
  destruct (Z.ltb_spec (twoDigitValue a b) (- 2 ^ 63)); [lia|].
  reflexivity.
Qed.

Lemma Split_textHM (a b c d : ascii) :
  strconv.isDigit a = true -> strconv.isDigit b = true ->
  strconv.isDigit c = true -> strconv.isDigit d = true ->
  strings.Split (textHM a b c d) ":" =
  [String a (String b ""); String c (String d "")].
Proof.
  intros Ha Hb Hc Hd. unfold textHM. cbn [strings.Split].
  rewrite (isDigit_notColon a Ha), (isDigit_notColon b Hb),
    (isDigit_notColon c Hc), (isDigit_notColon d Hd).
  reflexivity.
Qed.

Lemma Split_textHMS (a b c d e f : ascii) :
  strconv.isDigit a = true -> strconv.isDigit b = true ->
  strconv.isDigit c = true -> strconv.isDigit d = true ->
  strconv.isDigit e = true -> strconv.isDigit f = true ->
  strings.Split (textHMS a b c d e f) ":" =
  [String a (String b ""); String c (String d ""); String e (String f "")].
Proof.
  intros Ha Hb Hc Hd He Hf. unfold textHMS. cbn [strings.Split].
  rewrite (isDigit_notColon a Ha), (isDigit_notColon b Hb),
    (isDigit_notColon c Hc), (isDigit_notColon d Hd),
    (isDigit_notColon e He), (isDigit_notColon f Hf).
  reflexivity.
Qed.

Lemma hasDaytimeShape_textHM (a b c d : ascii) :
  strconv.isDigit a = true -> strconv.isDigit b = true ->
  strconv.isDigit c = true -> strconv.isDigit d = true ->
  hasDaytimeShape (textHM a b c d) = true.
Proof.
  intros Ha Hb Hc Hd. unfold hasDaytimeShape, textHM. cbn.
  now rewrite Ha, Hb, Hc, Hd.
Qed.

Lemma hasDaytimeShape_textHMS (a b c d e f : ascii) :
  strconv.isDigit a = true -> strconv.isDigit b = true ->
  strconv.isDigit c = true -> strconv.isDigit d = true ->
  strconv.isDigit e = true -> strconv.isDigit f = true ->
  hasDaytimeShape (textHMS a b c d e f) = true.
Proof.
  intros Ha Hb Hc Hd He Hf. unfold hasDaytimeShape, textHMS. cbn.
  now rewrite Ha, Hb, Hc, Hd, He, Hf.
Qed.

(** The shape, spelled out. *)
Lemma hasDaytimeShape_iff (s : string) :
  hasDaytimeShape s = true <->
  (exists a b c d,
      s = textHM a b c d /\
      strconv.isDigit a = true /\ strconv.isDigit b = true /\
      strconv.isDigit c = true /\ strconv.isDigit d = true) \/
  (exists a b c d e f,
      s = textHMS a b c d e f /\
      strconv.isDigit a = true /\ strconv.isDigit b = true /\
      strconv.isDigit c = true /\ strconv.isDigit d = true /\
      strconv.isDigit e = true /\ strconv.isDigit f = true).
Proof.
  split.
  - unfold hasDaytimeShape.
    destruct s as [|a [|b [|p [|c [|d s]]]]]; cbn; try discriminate.
    destruct s as [|q [|e [|f [|g s]]]]; cbn; try discriminate.
    + intros H. rewrite !andb_true_iff in H.
      destruct H as ((((Ha & Hb) & Hp) & Hc) & Hd).
      apply Ascii.eqb_eq in Hp. subst p.
      left. exists a, b, c, d. auto.
    + intros H. rewrite !andb_true_iff in H.
      destruct H as (((((((Ha & Hb) & Hp) & Hc) & Hd) & Hq) & He) & Hf).
      apply Ascii.eqb_eq in Hp, Hq. subst p q.
      right. exists a, b, c, d, e, f. repeat split; auto.
  - intros [(a & b & c & d & -> & Ha & Hb & Hc & Hd)
           |(a & b & c & d & e & f & -> & Ha & Hb & Hc & Hd & He & Hf)].
    + now apply hasDaytimeShape_textHM.
    + now apply hasDaytimeShape_textHMS.
Qed.

Lemma Parse_other_shape (s : string) :
  hasDaytimeShape (strings.Trim s daytime.spaceTab) = false ->
  daytime.Parse s =
  Returns (daytime.zeroDayTime,
           Some (Wrapped ErrInvalid
                   ("value '" ++ strings.Trim s daytime.spaceTab ++ "'"))).
Proof.
  intros H. unfold daytime.Parse.
  rewrite MatchString_daytimeRegex, H. reflexivity.
Qed.

Lemma Parse_textHM (s : string) (a b c d : ascii) :
  strings.Trim s daytime.spaceTab = textHM a b c d ->
  strconv.isDigit a = true -> strconv.isDigit b = true ->
  strconv.isDigit c = true -> strconv.isDigit d = true ->
  daytime.Parse s =
  Returns (daytime.New (twoDigitValue a b) (twoDigitValue c d) 0).
Proof.
  intros Ht Ha Hb Hc Hd. unfold daytime.Parse.
  rewrite Ht, MatchString_daytimeRegex, hasDaytimeShape_textHM by assumption.
  rewrite Split_textHM by assumption.
  cbn [negb sliceIndex nth_error bind Monad_go go_bind ret List.length
       Nat.ltb Nat.leb].
  rewrite !Atoi_two_digits by assumption. reflexivity.
Qed.

Lemma Parse_textHMS (s : string) (a b c d e f : ascii) :
  strings.Trim s daytime.spaceTab = textHMS a b c d e f ->
  strconv.isDigit a = true -> strconv.isDigit b = true ->
  strconv.isDigit c = true -> strconv.isDigit d = true ->
  strconv.isDigit e = true -> strconv.isDigit f = true ->
  daytime.Parse s =
  Returns (daytime.New (twoDigitValue a b) (twoDigitValue c d)
                       (twoDigitValue e f)).
Proof.
  intros Ht Ha Hb Hc Hd He Hf. unfold daytime.Parse.
  rewrite Ht, MatchString_daytimeRegex, hasDaytimeShape_textHMS by assumption.
  rewrite Split_textHMS by assumption.
  cbn [negb sliceIndex nth_error bind Monad_go go_bind ret List.length
       Nat.ltb Nat.leb].
  rewrite !Atoi_two_digits by assumption. reflexivity.
Qed.

(** [Parse] never panics: the indexing of the pieces is always in range. *)
Lemma Parse_returns (s : string) :
  exists value err, daytime.Parse s = Returns (value, err).
Proof.
  destruct (hasDaytimeShape (strings.Trim s daytime.spaceTab)) eqn:Hshape.
  - apply hasDaytimeShape_iff in Hshape.
    destruct Hshape as
      [(a & b & c & d & Ht & Ha & Hb & Hc & Hd)
      |(a & b & c & d & e & f & Ht & Ha & Hb & Hc & Hd & He & Hf)].
    + rewrite (Parse_textHM s a b c d) by assumption.
      destruct (daytime.New _ _ _) as [value err]. now exists value, err.
    + rewrite (Parse_textHMS s a b c d e f) by assumption.
      destruct (daytime.New _ _ _) as [value err]. now exists value, err.
  - rewrite Parse_other_shape by assumption. eauto.
Qed.

End Parsing.

Section Calendar.

(** The two conversions between day numbers and dates agree. *)
Lemma daysFromCivil_civilFromDays (days : Z) :
  let '(year, month, day) := time.civilFromDays days in
  time.daysFromCivil year month day = days.
Proof.
  unfold time.civilFromDays, time.daysFromCivil. cbv zeta.
  set (z := days + 719468).
  set (era := z / 146097).
  set (doe := z - era * 146097).
  assert (Hdoe : 0 <= doe <= 146096)
    by (subst doe era; Z.to_euclidean_division_equations; lia).
  set (yoe := (doe - doe / 1460 + doe / 36524 - doe / 146096) / 365).
  assert (Hyoe : 0 <= yoe <= 399)
    by (subst yoe; Z.to_euclidean_division_equations; lia).
  set (doy := doe - (365 * yoe + yoe / 4 - yoe / 100)).
  assert (Hdoy : 0 <= doy <= 365)
    by (subst doy yoe; Z.to_euclidean_division_equations; lia).
  set (mp := (5 * doy + 2) / 153).
  assert (Hmp : 0 <= mp <= 11)
    by (subst mp; Z.to_euclidean_division_equations; lia).
  assert (Hera : (yoe + era * 400) / 400 = era)
    by (Z.to_euclidean_division_equations; lia).
  destruct (Z.ltb_spec mp 10).
  - destruct (Z.leb_spec (mp + 3) 2); [lia|].
    destruct (Z.gtb_spec (mp + 3) 2); [|lia].
    replace (mp + 3 - 3) with mp by lia. rewrite Hera.
    replace (yoe + era * 400 - era * 400) with yoe by lia.
    subst doy z doe. lia.
  - destruct (Z.leb_spec (mp - 9) 2); [|lia].
    destruct (Z.gtb_spec (mp - 9) 2); [lia|].
    replace (mp - 9 + 9) with mp by lia.
    replace (yoe + era * 400 + 1 - 1) with (yoe + era * 400) by lia.
    rewrite Hera.
    replace (yoe + era * 400 - era * 400) with yoe by lia.
    subst doy z doe. lia.
Qed.

(** [Time()] puts a time of day on the calendar date of the moment it
    reads, in the zone of that moment, with no fraction of a second. *)
Lemma onTheDateOf_valid (now : time.Time) (h m s : Z) :
  validTriple h m s ->
  let result := onTheDateOf now (Some (daytime.mkDayTime h m s)) in
  time.DateOf result = time.DateOf now /\
  time.ClockOf result = (h, m, s) /\
  time.NanosecondOf result = 0 /\
  time.location result = time.location now.
Proof.
  intros (Hh & Hm & Hs). cbv zeta. unfold onTheDateOf, time.DateOf.
  cbn [daytime.hour daytime.minute daytime.second].
  set (days := time.wallSeconds now / time.secondsPerDay).
  pose proof (daysFromCivil_civilFromDays days) as Hdays.
  destruct (time.civilFromDays days) as [[year month] day] eqn:Hcivil.
  unfold time.ClockOf, time.NanosecondOf, time.wallSeconds, time.Date.
  cbn [time.unixNano time.location]. rewrite Hdays.
  unfold time.secondsPerDay, time.Second, time.Nanosecond.
  set (off := time.offset (time.location now)).
  replace (((days * 86400 + h * 3600 + m * 60 + s - off) *
            (1000000000 * 1) + 0) / (1000000000 * 1) + off)
    with (days * 86400 + (h * 3600 + m * 60 + s))
    by (Z.to_euclidean_division_equations; lia).
  replace ((days * 86400 + (h * 3600 + m * 60 + s)) / 86400) with days
    by (Z.to_euclidean_division_equations; lia).
  replace ((days * 86400 + (h * 3600 + m * 60 + s)) mod 86400)
    with (h * 3600 + m * 60 + s)
    by (Z.to_euclidean_division_equations; lia).
  rewrite Hcivil. repeat split.
  - f_equal; [f_equal|]; Z.to_euclidean_division_equations; lia.
  - Z.to_euclidean_division_equations; lia.
Qed.

(** A nil receiver stands for [00:00:00]. *)
Lemma onTheDateOf_nil (now : time.Time) :
  onTheDateOf now None = onTheDateOf now (Some daytime.zeroDayTime).
Proof. reflexivity. Qed.

End Calendar.

Section Examples.

Example Parse_examples :
  daytime.Parse "00:01:02" = Returns (daytime.mkDayTime 0 1 2, None) /\
  daytime.Parse "" =
    Returns (daytime.zeroDayTime, Some (Wrapped ErrInvalid "value ''")) /\
  daytime.Parse " 1:2:3 " =
    Returns (daytime.zeroDayTime, Some (Wrapped ErrInvalid "value '1:2:3'")) /\
  daytime.Parse ("01:02" ++ daytime.newline) =
    Returns (daytime.zeroDayTime,
             Some (Wrapped ErrInvalid
                     ("value '01:02" ++ daytime.newline ++ "'"))) /\
  daytime.Parse (daytime.spaceTab ++ "23:59" ++ daytime.spaceTab) =
    Returns (daytime.mkDayTime 23 59 0, None).
Proof. repeat split. Qed.

Example strconv_examples :
  strconv.Itoa 0 = "0" /\ strconv.Itoa (-42) = "-42" /\
  strconv.Itoa 9223372036854775807 = "9223372036854775807" /\
  strconv.Atoi "-12" = (-12, None) /\
  strconv.Atoi "+" = (0, Some (NumError "Atoi" "+" ErrSyntax)) /\
  strconv.Atoi "9223372036854775808" =
    (9223372036854775807,
     Some (NumError "Atoi" "9223372036854775808" ErrRange)).
Proof. repeat split. Qed.

(** The digits are read from left to right: a number that leaves the
    unsigned 64-bit range is reported before a later byte that is not a
    digit. *)
Example Atoi_first_failure :
  strconv.Atoi "99999999999999999999x" =
    (9223372036854775807,
     Some (NumError "Atoi" "99999999999999999999x" ErrRange)) /\
  strconv.Atoi "9999999999999999999x" =
    (0, Some (NumError "Atoi" "9999999999999999999x" ErrSyntax)) /\
  strconv.Atoi "-9223372036854775808" = (-9223372036854775808, None).
Proof. repeat split. Qed.

(** October 31, 2026 at 00:00:00.1 UTC; [Time()] on [{1,2,3}] then gives
    October 31, 2026 at 01:02:03 UTC. *)
Example Time_example :
  time.DateOf justAfterMidnight = (2026, 10, 31) /\
  fst (daytime.Time (Some (daytime.mkDayTime 1 2 3)) steadyClock) =
    time.Date 2026 10 31 1 2 3 0 time.UTC /\
  fst (daytime.Time None steadyClock) = time.Date 2026 10 31 0 0 0 0 time.UTC.
Proof. repeat split. Qed.

End Examples.

(** * The claims of the specification *)

(** ** Construction *)

Lemma New_valid (h m s : Z) :
  validTriple h m s ->
  daytime.New h m s = (daytime.mkDayTime h m s, None).
Proof.
  intros (Hh & Hm & Hs). unfold daytime.New.
  destruct (Z.ltb_spec h 0), (Z.gtb_spec h 23),
    (Z.ltb_spec m 0), (Z.gtb_spec m 59),
    (Z.ltb_spec s 0), (Z.gtb_spec s 59); try lia.
  reflexivity.
Qed.

(** C4. [New] succeeds, and then returns exactly the triple it was given,
    if and only if the hour lies in [0,23] and the minute and the second lie
    in [0,59].  Otherwise it returns the zero triple with an error that is
    [ErrInvalid]; the hour is checked first, then the minute, then the
    second, and the error names the first field out of range only. *)
Theorem New_validates (h m s : Z) :
  (validTriple h m s ->
   daytime.New h m s = (daytime.mkDayTime h m s, None)) /\
  (snd (daytime.New h m s) = None -> validTriple h m s) /\
  (~ validTriple h m s ->
   fst (daytime.New h m s) = daytime.zeroDayTime /\
   exists e, snd (daytime.New h m s) = Some e /\
             errors.Is e ErrInvalid = true) /\
  (~ 0 <= h <= 23 ->
   snd (daytime.New h m s) =
   Some (Wrapped ErrInvalid ("value of hour is " ++ strconv.Itoa h))) /\
  (0 <= h <= 23 -> ~ 0 <= m <= 59 ->
   snd (daytime.New h m s) =
   Some (Wrapped ErrInvalid ("value of minute is " ++ strconv.Itoa m))) /\
  (0 <= h <= 23 -> 0 <= m <= 59 -> ~ 0 <= s <= 59 ->
   snd (daytime.New h m s) =
   Some (Wrapped ErrInvalid ("value of second is " ++ strconv.Itoa s))).
Proof.
  unfold validTriple, daytime.New, fmt.Sprintf_d.
  destruct (Z.ltb_spec h 0), (Z.gtb_spec h 23),
    (Z.ltb_spec m 0), (Z.gtb_spec m 59),
    (Z.ltb_spec s 0), (Z.gtb_spec s 59); cbn;
    repeat split; intros; try lia; try discriminate; try reflexivity;
    eexists; split; reflexivity.
Qed.

(** ** Rendering *)

Lemma String_valid (t : daytime.DayTime) :
  validDayTime t ->
  daytime.String (Some t) =
  canonicalText (daytime.hour t) (daytime.minute t) (daytime.second t).
Proof.
  intros (Hh & Hm & Hs). unfold daytime.String, canonicalText.
  rewrite !padded_Itoa by lia.
  destruct (daytime.second t =? 0); reflexivity.
Qed.

(** C6. [String] on a nil receiver is ["00:00"]; on a time of day it is
    the hour and the minute, each with two digits, joined by a colon,
    followed by a colon and the two-digit second unless the second is 0. *)
Theorem String_renders (t : daytime.DayTime) :
  validDayTime t ->
  daytime.String None = "00:00" /\
  daytime.String (Some t) =
    twoDigits (daytime.hour t) ++ ":" ++ twoDigits (daytime.minute t) ++
    (if daytime.second t =? 0 then ""
     else ":" ++ twoDigits (daytime.second t)) /\
  daytime.String (Some (daytime.mkDayTime 1 2 3)) = "01:02:03" /\
  daytime.String (Some (daytime.mkDayTime 1 2 0)) = "01:02".
Proof.
  intros Hv. repeat split; try reflexivity.
  exact (String_valid t Hv).
Qed.

Lemma String_renders_witness :
  validDayTime (daytime.mkDayTime 23 59 7) /\
  daytime.String (Some (daytime.mkDayTime 23 59 7)) = "23:59:07".
Proof.
  assert (Hv : validDayTime (daytime.mkDayTime 23 59 7))
    by (unfold validDayTime, validTriple; cbn; lia).
  split; [exact Hv|].
  exact (proj1 (proj2 (String_renders (daytime.mkDayTime 23 59 7) Hv))).
Defined.

(** ** Parsing *)

Lemma twoDigits_chars (n : Z) :
  0 <= n <= 99 ->
  strconv.isDigit (strconv.digit (n / 10)) = true /\
  strconv.isDigit (strconv.digit (n mod 10)) = true /\
  twoDigitValue (strconv.digit (n / 10)) (strconv.digit (n mod 10)) = n.
Proof.
  intros H.
  assert (Hq : 0 <= n / 10 <= 9) by (Z.to_euclidean_division_equations; lia).
  assert (Hr : 0 <= n mod 10 <= 9) by (Z.to_euclidean_division_equations; lia).
  repeat split; try (apply isDigit_digit; assumption).
  unfold twoDigitValue. rewrite !digitValue_digit by assumption.
  Z.to_euclidean_division_equations; lia.
Qed.

(** The canonical text of a time of day is read back as that time of day. *)
Lemma Parse_canonicalText (h m s : Z) :
  validTriple h m s ->
  daytime.Parse (canonicalText h m s) =
  Returns (daytime.mkDayTime h m s, None).
Proof.
  intros Hv. pose proof Hv as (Hh & Hm & Hs).
  destruct (twoDigits_chars h) as (Hh1 & Hh2 & Hhv); [lia|].
  destruct (twoDigits_chars m) as (Hm1 & Hm2 & Hmv); [lia|].
  destruct (twoDigits_chars s) as (Hs1 & Hs2 & Hsv); [lia|].
  unfold canonicalText, twoDigits. destruct (Z.eqb_spec s 0) as [-> | Hne].
  - rewrite (Parse_textHM _ (strconv.digit (h / 10)) (strconv.digit (h mod 10))
               (strconv.digit (m / 10)) (strconv.digit (m mod 10)));
      try assumption.
    + rewrite Hhv, Hmv. f_equal.
      exact (New_valid h m 0 Hv).
    + apply Trim_id; cbn; now apply isDigit_notSpaceOrTab.
  - rewrite (Parse_textHMS _ (strconv.digit (h / 10)) (strconv.digit (h mod 10))
               (strconv.digit (m / 10)) (strconv.digit (m mod 10))
               (strconv.digit (s / 10)) (strconv.digit (s mod 10)));
      try assumption.
    + rewrite Hhv, Hmv, Hsv. f_equal.
      exact (New_valid h m s Hv).
    + apply Trim_id; cbn; now apply isDigit_notSpaceOrTab.
Qed.

(** C2. For every valid triple, parsing the rendering of [New(h,m,s)]
    succeeds and gives [(h,m,0)] when [s] is 0 and [(h,m,s)] otherwise. *)
Theorem Parse_String_roundtrip (h m s : Z) :
  validTriple h m s ->
  daytime.Parse (daytime.String (Some (fst (daytime.New h m s)))) =
  Returns (daytime.mkDayTime h m (if s =? 0 then 0 else s), None).
Proof.
  intros Hv. rewrite (New_valid h m s Hv). cbn [fst].
  rewrite String_valid by exact Hv. cbn [daytime.hour daytime.minute daytime.second].
  rewrite Parse_canonicalText by exact Hv.
  destruct (Z.eqb_spec s 0) as [-> | _]; reflexivity.
Qed.

Lemma Parse_String_roundtrip_witness :
  validTriple 7 5 0 /\
  daytime.Parse (daytime.String (Some (fst (daytime.New 7 5 0)))) =
  Returns (daytime.mkDayTime 7 5 0, None).
Proof.
  assert (Hv : validTriple 7 5 0) by (unfold validTriple; lia).
  split; [exact Hv | exact (Parse_String_roundtrip 7 5 0 Hv)].
Defined.

(** C3. [Parse] works on the input without its leading and trailing spaces
    and tabs (and without nothing else).  It succeeds only if that text has
    the shape [dd:dd] or [dd:dd:dd]; a text of another shape is rejected with
    [ErrInvalid] and the text; on a text of that shape the result is the one
    of [New] on the numbers read, the second being 0 when it is absent, so
    that a number out of range gives the error of [New]. *)
Theorem Parse_grammar (s : string) :
  let t := strings.Trim s daytime.spaceTab in
  trimmedOf s t /\
  (hasDaytimeShape t = true <->
   (exists a b c d,
       t = textHM a b c d /\
       strconv.isDigit a = true /\ strconv.isDigit b = true /\
       strconv.isDigit c = true /\ strconv.isDigit d = true) \/
   (exists a b c d e f,
       t = textHMS a b c d e f /\
       strconv.isDigit a = true /\ strconv.isDigit b = true /\
       strconv.isDigit c = true /\ strconv.isDigit d = true /\
       strconv.isDigit e = true /\ strconv.isDigit f = true)) /\
  (forall value, daytime.Parse s = Returns (value, None) ->
                 hasDaytimeShape t = true) /\
  (hasDaytimeShape t = false ->
   daytime.Parse s =
   Returns (daytime.zeroDayTime,
            Some (Wrapped ErrInvalid ("value '" ++ t ++ "'")))) /\
  (forall a b c d,
      t = textHM a b c d ->
      strconv.isDigit a = true -> strconv.isDigit b = true ->
      strconv.isDigit c = true -> strconv.isDigit d = true ->
      daytime.Parse s =
      Returns (daytime.New (twoDigitValue a b) (twoDigitValue c d) 0)) /\
  (forall a b c d e f,
      t = textHMS a b c d e f ->
      strconv.isDigit a = true -> strconv.isDigit b = true ->
      strconv.isDigit c = true -> strconv.isDigit d = true ->
      strconv.isDigit e = true -> strconv.isDigit f = true ->
      daytime.Parse s =
      Returns (daytime.New (twoDigitValue a b) (twoDigitValue c d)
                           (twoDigitValue e f))) /\
  daytime.Parse "24:02:03" = Returns (daytime.New 24 2 3) /\
  daytime.New 24 2 3 =
  (daytime.zeroDayTime, Some (Wrapped ErrInvalid "value of hour is 24")).
Proof.
  cbv zeta. split; [apply Trim_spaceTab|].
  split; [apply hasDaytimeShape_iff|].
  split.
  { intros value Hparse.
    destruct (hasDaytimeShape (strings.Trim s daytime.spaceTab)) eqn:Hshape;
      [reflexivity|].
    rewrite Parse_other_shape in Hparse by exact Hshape. discriminate. }
  split; [apply Parse_other_shape|].
  split; [intros; now apply Parse_textHM|].
  split; [intros; now apply Parse_textHMS|].
  split; reflexivity.
Qed.

(** ** Temporal anchoring *)

Lemma Time_run (t : option daytime.DayTime) (c : time.Clock) :
  daytime.Time t c =
  (onTheDateOf (time.reading c (time.reads c)) t,
   time.mkClock (time.reading c) (S (time.reads c))).
Proof.
  unfold daytime.Time, onTheDateOf.
  cbn [bind ret Monad_clocked]. unfold clocked_bind, clocked_ret.
  cbn [time.Now].
  destruct (time.DateOf _) as [[year month] day].
  destruct t as [t|]; reflexivity.
Qed.

Lemma InTheNearFuture_run (t : option daytime.DayTime) (c : time.Clock) :
  daytime.InTheNearFuture t c =
  (let now := fst (time.Now c) in
   let datetime := fst (daytime.Time t (snd (time.Now c))) in
   if time.Before datetime now then time.Add datetime daytime.Day
   else datetime,
   snd (daytime.Time t (snd (time.Now c)))).
Proof.
  unfold daytime.InTheNearFuture.
  cbn [bind ret Monad_clocked]. unfold clocked_bind, clocked_ret.
  cbn [time.Now fst snd].
  destruct (daytime.Time t _) as [datetime c']. reflexivity.
Qed.

Lemma InTheRecentPast_run (t : option daytime.DayTime) (c : time.Clock) :
  daytime.InTheRecentPast t c =
  (let now := fst (time.Now c) in
   let datetime := fst (daytime.Time t (snd (time.Now c))) in
   if time.After datetime now then time.Add datetime (- daytime.Day)
   else datetime,
   snd (daytime.Time t (snd (time.Now c)))).
Proof.
  unfold daytime.InTheRecentPast.
  cbn [bind ret Monad_clocked]. unfold clocked_bind, clocked_ret.
  cbn [time.Now fst snd].
  destruct (daytime.Time t _) as [datetime c']. reflexivity.
Qed.

Lemma Day_nanoseconds : daytime.Day = 86400000000000.
Proof. reflexivity. Qed.

(** C1. With [now] the moment that the method reads and [datetime] the
    result of its call of [Time()]: [InTheNearFuture] returns [datetime]
    when it is not strictly before [now] and [datetime] plus 24 hours when it
    is; [InTheRecentPast] returns [datetime] when it is not strictly after
    [now] and [datetime] minus 24 hours when it is; when both are the same
    instant neither method shifts.  This holds for a nil receiver too. *)
Theorem anchoring_rollover (t : option daytime.DayTime) (c : time.Clock) :
  let now := fst (time.Now c) in
  let datetime := fst (daytime.Time t (snd (time.Now c))) in
  let future := fst (daytime.InTheNearFuture t c) in
  let past := fst (daytime.InTheRecentPast t c) in
  (time.unixNano now <= time.unixNano datetime -> future = datetime) /\
  (time.unixNano datetime < time.unixNano now ->
   future = time.Add datetime (24 * time.Hour) /\
   time.unixNano future = time.unixNano datetime + 24 * 3600 * 10 ^ 9) /\
  (time.unixNano datetime <= time.unixNano now -> past = datetime) /\
  (time.unixNano now < time.unixNano datetime ->
   past = time.Add datetime (- (24 * time.Hour)) /\
   time.unixNano past = time.unixNano datetime - 24 * 3600 * 10 ^ 9) /\
  (time.unixNano datetime = time.unixNano now ->
   future = datetime /\ past = datetime).
Proof.
  cbv zeta. rewrite InTheNearFuture_run, InTheRecentPast_run. cbv zeta.
  cbn [fst]. unfold time.Before, time.After.
  set (now := fst (time.Now c)).
  set (datetime := fst (daytime.Time t (snd (time.Now c)))).
  destruct (Z.ltb_spec (time.unixNano datetime) (time.unixNano now)),
    (Z.gtb_spec (time.unixNano datetime) (time.unixNano now));
    repeat split; intros; try lia; try reflexivity.
Qed.



(** ** Serialization adapters *)

Lemma UnmarshalBinary_run (data : string) (st : daytime.Store) :
  daytime.UnmarshalBinary data st = decodeRun data (daytime.stdout st) st.
Proof.
  unfold daytime.UnmarshalBinary, decodeRun. destruct st as [[d|] out];
    run_method; [|reflexivity].
  destruct (daytime.Parse data) as [[value [e|]]|r]; reflexivity.
Qed.

Lemma UnmarshalText_run (data : string) (st : daytime.Store) :
  daytime.UnmarshalText data st = decodeRun data (daytime.stdout st) st.
Proof. exact (UnmarshalBinary_run data st). Qed.

Lemma UnmarshalJSON_run (data : string) (st : daytime.Store) :
  daytime.UnmarshalJSON data st = decodeRun data (daytime.stdout st) st.
Proof. exact (UnmarshalBinary_run data st). Qed.

Lemma UnmarshalCSV_run (str : string) (st : daytime.Store) :
  daytime.UnmarshalCSV str st = decodeRun str (daytime.stdout st) st.
Proof. exact (UnmarshalBinary_run str st). Qed.

Lemma Scan_string_run (src : string) (st : daytime.Store) :
  daytime.Scan (AnyString src) st = decodeRun src (daytime.stdout st) st.
Proof.
  unfold daytime.Scan, decodeRun. destruct st as [[d|] out];
    run_method; [|reflexivity].
  destruct (daytime.Parse src) as [[value [e|]]|r]; reflexivity.
Qed.

Lemma Scan_bytes_run (src : string) (st : daytime.Store) :
  daytime.Scan (AnyBytes src) st =
  decodeRun src (daytime.stdout st ++ [scanTrace src]) st.
Proof.
  unfold daytime.Scan, decodeRun. destruct st as [[d|] out];
    run_method; [|reflexivity].
  destruct (daytime.Parse src) as [[value [e|]]|r]; reflexivity.
Qed.

Lemma Scan_other_run (typeName : string) (st : daytime.Store) :
  daytime.Scan (AnyOther typeName) st =
  match daytime.target st with
  | None => Returns (Some ErrObjIsNil, st)
  | Some _ =>
      Returns (Some (Wrapped ErrUnexpected
                       ("type of value '" ++ typeName ++ "'")), st)
  end.
Proof.
  unfold daytime.Scan. destruct st as [[d|] out]; run_method; reflexivity.
Qed.

Lemma decodeRun_contract
    (decode : daytime.method (option error)) (text : string)
    (out : daytime.Store -> list string) :
  (forall st, decode st = decodeRun text (out st) st) ->
  decodeContract decode text.
Proof.
  intros Hrun st. rewrite Hrun. unfold decodeRun.
  destruct (daytime.target st) as [d|]; [|reflexivity].
  destruct (Parse_returns text) as (value & err & Hparse).
  exists value, err. rewrite Hparse. split; [reflexivity|].
  destruct err as [e|]; eexists; split; reflexivity.
Qed.

(** C5. Each of [UnmarshalBinary], [UnmarshalText], [UnmarshalJSON],
    [UnmarshalCSV] and [Scan] (on bytes and on a string) reports
    [ErrObjIsNil] on a nil target, whatever the input and without any other
    effect; on a target that is present, a failure of [Parse] comes back
    wrapped with the context ["parse"] and the target keeps its triple, and
    only a success of [Parse] overwrites the target, with the whole parsed
    triple.  [Scan] checks the target before it looks at the type of its
    input. *)
Theorem decode_family (text : string) :
  decodeContract (daytime.UnmarshalBinary text) text /\
  decodeContract (daytime.UnmarshalText text) text /\
  decodeContract (daytime.UnmarshalJSON text) text /\
  decodeContract (daytime.UnmarshalCSV text) text /\
  decodeContract (daytime.Scan (AnyBytes text)) text /\
  decodeContract (daytime.Scan (AnyString text)) text /\
  (forall typeName st,
      daytime.target st = None ->
      daytime.Scan (AnyOther typeName) st = Returns (Some ErrObjIsNil, st)).
Proof.
  repeat split.
  - exact (decodeRun_contract _ _ _ (UnmarshalBinary_run text)).
  - exact (decodeRun_contract _ _ _ (UnmarshalText_run text)).
  - exact (decodeRun_contract _ _ _ (UnmarshalJSON_run text)).
  - exact (decodeRun_contract _ _ _ (UnmarshalCSV_run text)).
  - exact (decodeRun_contract _ _ _ (Scan_bytes_run text)).
  - exact (decodeRun_contract _ _ _ (Scan_string_run text)).
  - intros typeName st Hnil. rewrite Scan_other_run, Hnil. reflexivity.
Qed.

(** C7. On a target that is present, [Scan] of a string is the run of the
    other decode adapters on that text, and [Scan] of bytes ends with the
    same error and the same target as theirs (it also prints one line, which
    they do not); ["01:02:03"] as a string and as bytes both give [{1,2,3}];
    an input of any other type fails with [ErrUnexpected] and the name of
    that type, and the store is left as it was. *)
Theorem Scan_discriminates (st : daytime.Store) (d : daytime.DayTime) :
  daytime.target st = Some d ->
  (forall text,
      daytime.Scan (AnyString text) st = daytime.UnmarshalText text st /\
      daytime.Scan (AnyString text) st = daytime.UnmarshalBinary text st /\
      daytime.Scan (AnyString text) st = daytime.UnmarshalJSON text st /\
      daytime.Scan (AnyString text) st = daytime.UnmarshalCSV text st) /\
  (forall text,
      exists err st1 st2,
        daytime.UnmarshalBinary text st = Returns (err, st1) /\
        daytime.Scan (AnyBytes text) st = Returns (err, st2) /\
        daytime.target st2 = daytime.target st1 /\
        daytime.stdout st2 = (daytime.stdout st1 ++ [scanTrace text])%list) /\
  (exists st',
      daytime.Scan (AnyString "01:02:03") st = Returns (None, st') /\
      daytime.target st' = Some (daytime.mkDayTime 1 2 3)) /\
  (exists st',
      daytime.Scan (AnyBytes "01:02:03") st = Returns (None, st') /\
      daytime.target st' = Some (daytime.mkDayTime 1 2 3)) /\
  (forall typeName,
      daytime.Scan (AnyOther typeName) st =
      Returns (Some (Wrapped ErrUnexpected
                       ("type of value '" ++ typeName ++ "'")), st)).
Proof.
  intros Hd. split; [|split; [|split; [|split]]].
  - intros text.
    rewrite Scan_string_run, UnmarshalText_run, UnmarshalBinary_run,
      UnmarshalJSON_run, UnmarshalCSV_run. auto.
  - intros text. rewrite Scan_bytes_run, UnmarshalBinary_run.
    unfold decodeRun. rewrite Hd.
    destruct (Parse_returns text) as (value & [e|] & ->);
      do 3 eexists; repeat split.
  - rewrite Scan_string_run. unfold decodeRun. rewrite Hd.
    eexists; split; reflexivity.
  - rewrite Scan_bytes_run. unfold decodeRun. rewrite Hd.
    eexists; split; reflexivity.
  - intros typeName. rewrite Scan_other_run, Hd. reflexivity.
Qed.

Lemma Scan_discriminates_witness :
  daytime.Scan (AnyOther "map[int]string")
               (daytime.mkStore (Some daytime.zeroDayTime) []) =
  Returns (Some (Wrapped ErrUnexpected "type of value 'map[int]string'"),
           daytime.mkStore (Some daytime.zeroDayTime) []).
Proof.
  exact (proj2 (proj2 (proj2 (proj2
    (Scan_discriminates (daytime.mkStore (Some daytime.zeroDayTime) [])
                        daytime.zeroDayTime eq_refl))))
    "map[int]string").
Defined.

(** C9. [MarshalBinary], [MarshalText], [MarshalJSON], [MarshalCSV] and
    [Value] return the text of [String] on their receiver, as bytes, as a
    string or as a driver value, and never an error; on a nil receiver that
    text is ["00:00"]. *)
Theorem encode_family (t : option daytime.DayTime) :
  daytime.MarshalBinary t = (daytime.bytesOfString (daytime.String t), None) /\
  daytime.MarshalText t = (daytime.bytesOfString (daytime.String t), None) /\
  daytime.MarshalJSON t = (daytime.bytesOfString (daytime.String t), None) /\
  daytime.MarshalCSV t = (daytime.String t, None) /\
  daytime.Value t = (AnyString (daytime.String t), None) /\
  daytime.MarshalBinary None = ("00:00", None) /\
  daytime.MarshalText None = ("00:00", None) /\
  daytime.MarshalJSON None = ("00:00", None) /\
  daytime.MarshalCSV None = ("00:00", None) /\
  daytime.Value None = (AnyString "00:00", None).
Proof. repeat split. Qed.

(** C10. Midnight renders as ["00:00"], which is also the rendering of a
    nil receiver, so every encode adapter gives the same output for a nil
    receiver and for midnight. *)
Theorem midnight_renders_as_nil :
  let midnight := Some (daytime.mkDayTime 0 0 0) in
  daytime.String midnight = "00:00" /\
  daytime.String midnight = daytime.String None /\
  daytime.MarshalBinary midnight = daytime.MarshalBinary None /\
  daytime.MarshalText midnight = daytime.MarshalText None /\
  daytime.MarshalJSON midnight = daytime.MarshalJSON None /\
  daytime.MarshalCSV midnight = daytime.MarshalCSV None /\
  daytime.Value midnight = daytime.Value None.
Proof. cbv zeta. repeat split. Qed.

(** * Further properties of the code *)

(** ** What [Parse] returns *)

Lemma New_cases (h m s : Z) :
  (validTriple h m s /\
   daytime.New h m s = (daytime.mkDayTime h m s, None)) \/
  (exists message,
      daytime.New h m s =
      (daytime.zeroDayTime, Some (Wrapped ErrInvalid message))).
Proof.
  unfold daytime.New, validTriple.
  destruct (Z.ltb_spec h 0), (Z.gtb_spec h 23); cbn [orb];
    try (right; eexists; reflexivity).
  destruct (Z.ltb_spec m 0), (Z.gtb_spec m 59); cbn [orb];
    try (right; eexists; reflexivity).
  destruct (Z.ltb_spec s 0), (Z.gtb_spec s 59); cbn [orb];
    try (right; eexists; reflexivity).
  left. split; [lia | reflexivity].
Qed.

(** Every run of [Parse] ends in one of two ways. *)
Lemma Parse_cases (s : string) :
  (exists value,
      daytime.Parse s = Returns (value, None) /\ validDayTime value) \/
  (exists message,
      daytime.Parse s =
      Returns (daytime.zeroDayTime, Some (Wrapped ErrInvalid message))).
Proof.
  destruct (hasDaytimeShape (strings.Trim s daytime.spaceTab)) eqn:Hshape.
  - apply hasDaytimeShape_iff in Hshape.
    destruct Hshape as
      [(a & b & c & d & Ht & Ha & Hb & Hc & Hd)
      |(a & b & c & d & e & f & Ht & Ha & Hb & Hc & Hd & He & Hf)].
    + rewrite (Parse_textHM s a b c d) by assumption.
      destruct (New_cases (twoDigitValue a b) (twoDigitValue c d) 0)
        as [[Hv ->] | [message ->]]; [left | right]; eauto.
    + rewrite (Parse_textHMS s a b c d e f) by assumption.
      destruct (New_cases (twoDigitValue a b) (twoDigitValue c d)
                          (twoDigitValue e f))
        as [[Hv ->] | [message ->]]; [left | right]; eauto.
  - right. rewrite Parse_other_shape by assumption. eauto.
Qed.

(** X1. [Parse] returns on every input.  When its error is nil the value
    is a time of day (hour in [0,23], minute and second in [0,59]); when it
    is not, the value is the zero [DayTime] and the error is [ErrInvalid]
    with one layer of context: the conversion errors of [strconv.Atoi] that
    the code provides for never come out. *)
Theorem Parse_result_invariant (s : string) :
  exists value err,
    daytime.Parse s = Returns (value, err) /\
    match err with
    | None => validDayTime value
    | Some e =>
        value = daytime.zeroDayTime /\
        errors.Is e ErrInvalid = true /\
        errors.Cause e = ErrInvalid /\
        exists message, e = Wrapped ErrInvalid message
    end.
Proof.
  destruct (Parse_cases s) as [(value & -> & Hv) | (message & ->)].
  - exists value, None. auto.
  - exists daytime.zeroDayTime, (Some (Wrapped ErrInvalid message)).
    repeat split; eauto.
Qed.

(** ** Blanks around the text *)

Lemma TrimLeft_blank (r : string) :
  allSpaceOrTab r = true -> strings.TrimLeft r daytime.spaceTab = "".
Proof.
  induction r as [|c r IH]; [reflexivity|]. cbn [allSpaceOrTab].
  intros H. apply andb_true_iff in H. destruct H as [Hc Hr].
  cbn [strings.TrimLeft]. rewrite inCutset_spaceTab, Hc. now apply IH.
Qed.

Lemma TrimRight_blank (r : string) :
  allSpaceOrTab r = true -> strings.TrimRight r daytime.spaceTab = "".
Proof.
  induction r as [|c r IH]; [reflexivity|]. cbn [allSpaceOrTab].
  intros H. apply andb_true_iff in H. destruct H as [Hc Hr].
  cbn [strings.TrimRight]. rewrite (IH Hr), inCutset_spaceTab, Hc.
  reflexivity.
Qed.

Lemma TrimLeft_app_blank (l s : string) :
  allSpaceOrTab l = true ->
  strings.TrimLeft (l ++ s) daytime.spaceTab =
  strings.TrimLeft s daytime.spaceTab.
Proof.
  induction l as [|c l IH]; [reflexivity|]. cbn [allSpaceOrTab].
  intros H. apply andb_true_iff in H. destruct H as [Hc Hl].
  cbn [append strings.TrimLeft]. rewrite inCutset_spaceTab, Hc. now apply IH.
Qed.

Lemma TrimRight_app_blank (s r : string) :
  allSpaceOrTab r = true ->
  strings.TrimRight (s ++ r) daytime.spaceTab =
  strings.TrimRight s daytime.spaceTab.
Proof.
  intros Hr. induction s as [|c s IH].
  - cbn [append]. now rewrite TrimRight_blank.
  - cbn [append strings.TrimRight]. now rewrite IH.
Qed.

Lemma Trim_app_blank (l s r : string) :
  allSpaceOrTab l = true -> allSpaceOrTab r = true ->
  strings.Trim (l ++ s ++ r) daytime.spaceTab =
  strings.Trim s daytime.spaceTab.
Proof.
  intros Hl Hr. unfold strings.Trim. rewrite TrimLeft_app_blank by exact Hl.
  induction s as [|c s IH].
  - cbn [append]. now rewrite TrimLeft_blank.
  - cbn [append strings.TrimLeft]. rewrite inCutset_spaceTab.
    destruct (isSpaceOrTab c); [exact IH|].
    exact (TrimRight_app_blank (String c s) r Hr).
Qed.

(** [Parse] looks at its input through [strings.Trim] only. *)
Lemma Parse_through_Trim (s s' : string) :
  strings.Trim s daytime.spaceTab = strings.Trim s' daytime.spaceTab ->
  daytime.Parse s = daytime.Parse s'.
Proof. intros H. unfold daytime.Parse. now rewrite H. Qed.

(** X2. Spaces and tabs before and after a text change nothing in what
    [Parse] returns for it, value and error alike. *)
Theorem Parse_ignores_blanks (l s r : string) :
  allSpaceOrTab l = true -> allSpaceOrTab r = true ->
  daytime.Parse (l ++ s ++ r) = daytime.Parse s.
Proof.
  intros Hl Hr. apply Parse_through_Trim. now apply Trim_app_blank.
Qed.

Lemma Parse_ignores_blanks_witness :
  daytime.Parse (daytime.spaceTab ++ "07:05:09" ++ "  ") =
  daytime.Parse "07:05:09".
Proof.
  exact (Parse_ignores_blanks daytime.spaceTab "07:05:09" "  "
                              eq_refl eq_refl).
Defined.

(** ** Rendering what was parsed *)

Lemma digit_digitValue (c : ascii) :
  strconv.isDigit c = true -> strconv.digit (strconv.digitValue c) = c.
Proof.
  destruct c as [[] [] [] [] [] [] [] []]; vm_compute; congruence.
Qed.

Lemma twoDigits_twoDigitValue (a b : ascii) :
  strconv.isDigit a = true -> strconv.isDigit b = true ->
  twoDigits (twoDigitValue a b) = String a (String b "").
Proof.
  intros Ha Hb.
  pose proof (digitValue_range a Ha) as Hra.
  pose proof (digitValue_range b Hb) as Hrb.
  unfold twoDigits, twoDigitValue.
  replace ((10 * strconv.digitValue a + strconv.digitValue b) / 10)
    with (strconv.digitValue a)
    by (Z.to_euclidean_division_equations; lia).
  replace ((10 * strconv.digitValue a + strconv.digitValue b) mod 10)
    with (strconv.digitValue b)
    by (Z.to_euclidean_division_equations; lia).
  now rewrite !digit_digitValue by assumption.
Qed.

Lemma New_success (h m s : Z) (value : daytime.DayTime) :
  daytime.New h m s = (value, None) ->
  validTriple h m s /\ value = daytime.mkDayTime h m s.
Proof.
  intros H. destruct (New_cases h m s) as [[Hv Hnew] | [message Hnew]];
    rewrite Hnew in H; [|discriminate].
  injection H as <-. auto.
Qed.

(** X3. When [Parse] succeeds, the text without its surrounding blanks is
    the two-digit rendering of the value it returns, with or without a
    seconds part, and [String] on that value gives this text back, except
    that a seconds part [:00] is left out (the first five bytes remain). *)
Theorem String_after_Parse (s : string) (value : daytime.DayTime) :
  daytime.Parse s = Returns (value, None) ->
  let t := strings.Trim s daytime.spaceTab in
  let h := daytime.hour value in
  let m := daytime.minute value in
  let sec := daytime.second value in
  (t = twoDigits h ++ ":" ++ twoDigits m /\ sec = 0 \/
   t = twoDigits h ++ ":" ++ twoDigits m ++ ":" ++ twoDigits sec) /\
  daytime.String (Some value) = (if sec =? 0 then substring 0 5 t else t).
Proof.
  intros Hparse. cbv zeta.
  destruct (hasDaytimeShape (strings.Trim s daytime.spaceTab)) eqn:Hshape;
    [|rewrite Parse_other_shape in Hparse by exact Hshape; discriminate].
  apply hasDaytimeShape_iff in Hshape.
  destruct Hshape as
    [(a & b & c & d & Ht & Ha & Hb & Hc & Hd)
    |(a & b & c & d & e & f & Ht & Ha & Hb & Hc & Hd & He & Hf)].
  - rewrite (Parse_textHM s a b c d) in Hparse by assumption.
    injection Hparse as Hnew. apply New_success in Hnew.
    destruct Hnew as [Hv ->]. rewrite String_valid by exact Hv.
    cbn [daytime.hour daytime.minute daytime.second].
    unfold canonicalText. rewrite !twoDigits_twoDigitValue by assumption.
    rewrite Ht. split; [left; split; reflexivity | reflexivity].
  - rewrite (Parse_textHMS s a b c d e f) in Hparse by assumption.
    injection Hparse as Hnew. apply New_success in Hnew.
    destruct Hnew as [Hv ->]. rewrite String_valid by exact Hv.
    cbn [daytime.hour daytime.minute daytime.second].
    unfold canonicalText. rewrite !twoDigits_twoDigitValue by assumption.
    rewrite Ht. split; [right; reflexivity|].
    destruct (twoDigitValue e f =? 0); reflexivity.
Qed.

Lemma String_after_Parse_witness :
  daytime.String (Some (daytime.mkDayTime 7 5 0)) =
  substring 0 5 (strings.Trim " 07:05:00 " daytime.spaceTab).
Proof.
  exact (proj2 (String_after_Parse " 07:05:00 " (daytime.mkDayTime 7 5 0)
                                   eq_refl)).
Defined.

Lemma Parse_String_valid (t : daytime.DayTime) :
  validDayTime t ->
  daytime.Parse (daytime.String (Some t)) = Returns (t, None).
Proof.
  intros Hv. rewrite String_valid by exact Hv.
  rewrite Parse_canonicalText by exact Hv. now destruct t.
Qed.

(** X4. [String] renders two different times of day differently: the
    canonical text loses nothing of a valid value. *)
Theorem String_injective (t u : daytime.DayTime) :
  validDayTime t -> validDayTime u -> t <> u ->
  daytime.String (Some t) <> daytime.String (Some u).
Proof.
  intros Ht Hu Hne Heq. apply Hne.
  pose proof (Parse_String_valid t Ht) as Hpt.
  rewrite Heq, (Parse_String_valid u Hu) in Hpt. now injection Hpt.
Qed.

Lemma String_injective_witness :
  daytime.String (Some (daytime.mkDayTime 1 2 0)) <>
  daytime.String (Some (daytime.mkDayTime 1 20 0)).
Proof.
  apply (String_injective (daytime.mkDayTime 1 2 0)
                          (daytime.mkDayTime 1 20 0)).
  - unfold validDayTime, validTriple; cbn; lia.
  - unfold validDayTime, validTriple; cbn; lia.
  - discriminate.
Defined.

(** ** Texts that do not start with a digit *)

Lemma TrimRight_first (c : ascii) (rest : string) :
  isSpaceOrTab c = false ->
  exists rest',
    strings.TrimRight (String c rest) daytime.spaceTab = String c rest'.
Proof.
  intros Hc. cbn [strings.TrimRight]. rewrite inCutset_spaceTab, Hc.
  destruct (strings.TrimRight rest daytime.spaceTab); eauto.
Qed.

Lemma hasDaytimeShape_first (c : ascii) (rest : string) :
  strconv.isDigit c = false -> hasDaytimeShape (String c rest) = false.
Proof.
  intros Hc. unfold hasDaytimeShape.
  do 8 (destruct rest as [|? rest]; cbn; rewrite ?Hc; try reflexivity).
Qed.

(** A text whose first byte is neither a blank nor a digit is rejected. *)
Lemma Parse_first_not_digit (c : ascii) (rest : string) :
  isSpaceOrTab c = false -> strconv.isDigit c = false ->
  exists message,
    daytime.Parse (String c rest) =
    Returns (daytime.zeroDayTime, Some (Wrapped ErrInvalid message)).
Proof.
  intros Hblank Hdigit.
  destruct (TrimRight_first c rest Hblank) as [rest' Htrim].
  assert (Ht : strings.Trim (String c rest) daytime.spaceTab = String c rest').
  { unfold strings.Trim. cbn [strings.TrimLeft].
    rewrite inCutset_spaceTab, Hblank. exact Htrim. }
  rewrite Parse_other_shape; rewrite Ht; eauto using hasDaytimeShape_first.
Qed.

(** X8. [UnmarshalJSON] on a target that is present rejects every input
    that is wrapped in double quotes, that is every JSON string literal,
    with [ErrInvalid]; the target and the standard output stay as they
    were. *)
Theorem UnmarshalJSON_rejects_quoted
    (text : string) (st : daytime.Store) (d : daytime.DayTime) :
  daytime.target st = Some d ->
  exists e,
    daytime.UnmarshalJSON (quoted text) st = Returns (Some e, st) /\
    errors.Is e ErrInvalid = true.
Proof.
  intros Hd. rewrite UnmarshalJSON_run. unfold decodeRun. rewrite Hd.
  destruct (Parse_first_not_digit doubleQuote (text ++ String doubleQuote ""))
    as [message Hparse]; [reflexivity | reflexivity |].
  unfold quoted. rewrite Hparse.
  exists (Wrapped (Wrapped ErrInvalid message) "parse").
  split; [|reflexivity].
  destruct st as [target out]. cbn in Hd. now subst target.
Qed.

Lemma UnmarshalJSON_rejects_quoted_witness :
  exists e,
    daytime.UnmarshalJSON (quoted "01:02:03")
      (daytime.mkStore (Some daytime.zeroDayTime) []) =
    Returns (Some e, daytime.mkStore (Some daytime.zeroDayTime) []) /\
    errors.Is e ErrInvalid = true.
Proof.
  exact (UnmarshalJSON_rejects_quoted "01:02:03"
           (daytime.mkStore (Some daytime.zeroDayTime) [])
           daytime.zeroDayTime eq_refl).
Defined.

(** ** Decoding keeps the invariant; encoding and decoding compose *)

Lemma decodeRun_invariant
    (text : string) (out : list string) (st : daytime.Store)
    (d : daytime.DayTime) :
  daytime.target st = Some d -> validDayTime d ->
  exists err d',
    decodeRun text out st = Returns (err, daytime.mkStore (Some d') out) /\
    validDayTime d' /\
    (forall e, err = Some e -> errors.Is e ErrInvalid = true /\ d' = d).
Proof.
  intros Hd Hv. unfold decodeRun. rewrite Hd.
  destruct (Parse_cases text) as [(value & -> & Hvalue) | (message & ->)].
  - exists None, value. split; [reflexivity|]. split; [exact Hvalue|].
    intros e He. discriminate He.
  - exists (Some (Wrapped (Wrapped ErrInvalid message) "parse")), d.
    split; [reflexivity|]. split; [exact Hv|].
    intros e [= <-]. split; reflexivity.
Qed.

(** X5. A decode operation on a target that holds a time of day leaves a
    time of day in it, whatever the input: the invariant of [DayTime] is
    kept.  Each of its errors is then [ErrInvalid] (under the context
    ["parse"]) and comes with the target's old value. *)
Theorem decode_preserves_invariant
    (text : string) (st : daytime.Store) (d : daytime.DayTime) :
  daytime.target st = Some d -> validDayTime d ->
  forall decode,
    In decode [daytime.UnmarshalBinary text; daytime.UnmarshalText text;
               daytime.UnmarshalJSON text; daytime.UnmarshalCSV text;
               daytime.Scan (AnyBytes text); daytime.Scan (AnyString text)] ->
    exists err st' d',
      decode st = Returns (err, st') /\
      daytime.target st' = Some d' /\ validDayTime d' /\
      (forall e, err = Some e -> errors.Is e ErrInvalid = true /\ d' = d).
Proof.
  intros Hd Hv decode Hin.
  assert (Hrun : exists out, decode st = decodeRun text out st).
  { cbn [In] in Hin.
    destruct Hin as [<- | [<- | [<- | [<- | [<- | [<- | []]]]]]];
      eexists;
      first [ apply UnmarshalBinary_run | apply UnmarshalText_run
            | apply UnmarshalJSON_run | apply UnmarshalCSV_run
            | apply Scan_bytes_run | apply Scan_string_run ]. }
  destruct Hrun as [out ->].
  destruct (decodeRun_invariant text out st d Hd Hv)
    as (err & d' & -> & Hv' & Herr).
  exists err, (daytime.mkStore (Some d') out), d'. auto.
Qed.

Lemma decode_preserves_invariant_witness :
  exists err st' d',
    daytime.Scan (AnyBytes "23:60")
                 (daytime.mkStore (Some (daytime.mkDayTime 1 2 3)) []) =
    Returns (err, st') /\
    daytime.target st' = Some d' /\ validDayTime d' /\
    (forall e, err = Some e ->
               errors.Is e ErrInvalid = true /\ d' = daytime.mkDayTime 1 2 3).
Proof.
  apply (decode_preserves_invariant "23:60"
           (daytime.mkStore (Some (daytime.mkDayTime 1 2 3)) [])
           (daytime.mkDayTime 1 2 3)).
  - reflexivity.
  - unfold validDayTime, validTriple; cbn; lia.
  - cbn. auto 10.
Defined.

Lemma decodeRun_String
    (t : option daytime.DayTime) (out : list string) (st : daytime.Store)
    (d : daytime.DayTime) :
  validReceiver t -> daytime.target st = Some d ->
  decodeRun (daytime.String t) out st =
  Returns (None,
           daytime.mkStore
             (Some (match t with Some t => t | None => daytime.zeroDayTime end))
             out).
Proof.
  intros Hv Hd. unfold decodeRun. rewrite Hd. destruct t as [t|].
  - now rewrite (Parse_String_valid t Hv).
  - reflexivity.
Qed.

(** X6. What an encoder writes for a time of day, the decoder of the same
    format reads back into any target that is present: binary, text, JSON
    and CSV.  What they write for a nil receiver is read back as
    [00:00:00]. *)
Theorem Marshal_Unmarshal_roundtrip
    (t : option daytime.DayTime) (st : daytime.Store) (d : daytime.DayTime) :
  validReceiver t -> daytime.target st = Some d ->
  let decoded :=
    Returns (None,
             daytime.mkStore
               (Some (match t with
                      | Some t => t
                      | None => daytime.zeroDayTime
                      end))
               (daytime.stdout st)) in
  daytime.UnmarshalBinary (fst (daytime.MarshalBinary t)) st = decoded /\
  daytime.UnmarshalText (fst (daytime.MarshalText t)) st = decoded /\
  daytime.UnmarshalJSON (fst (daytime.MarshalJSON t)) st = decoded /\
  daytime.UnmarshalCSV (fst (daytime.MarshalCSV t)) st = decoded.
Proof.
  intros Hv Hd. cbv zeta.
  unfold daytime.MarshalBinary, daytime.MarshalText, daytime.MarshalJSON,
    daytime.MarshalCSV, daytime.bytesOfString. cbn [fst].
  rewrite UnmarshalBinary_run, UnmarshalText_run, UnmarshalJSON_run,
    UnmarshalCSV_run.
  rewrite (decodeRun_String t _ st d Hv Hd). auto.
Qed.

Lemma Marshal_Unmarshal_roundtrip_witness :
  daytime.UnmarshalJSON
    (fst (daytime.MarshalJSON (Some (daytime.mkDayTime 23 59 0))))
    (daytime.mkStore (Some daytime.zeroDayTime) []) =
  Returns (None, daytime.mkStore (Some (daytime.mkDayTime 23 59 0)) []).
Proof.
  refine (proj1 (proj2 (proj2
    (Marshal_Unmarshal_roundtrip (Some (daytime.mkDayTime 23 59 0))
       (daytime.mkStore (Some daytime.zeroDayTime) [])
       daytime.zeroDayTime _ eq_refl)))).
  unfold validReceiver, validDayTime, validTriple; cbn; lia.
Defined.

(** X7. The driver value that [Value] produces for a time of day is read
    back by [Scan] into any target that is present; so are the bytes of
    [MarshalBinary], with one line printed on the way. *)
Theorem Value_Scan_roundtrip
    (t : option daytime.DayTime) (st : daytime.Store) (d : daytime.DayTime) :
  validReceiver t -> daytime.target st = Some d ->
  let back :=
    Some (match t with Some t => t | None => daytime.zeroDayTime end) in
  daytime.Scan (fst (daytime.Value t)) st =
    Returns (None, daytime.mkStore back (daytime.stdout st)) /\
  daytime.Scan (AnyBytes (fst (daytime.MarshalBinary t))) st =
    Returns (None,
             daytime.mkStore back
               (daytime.stdout st ++ [scanTrace (daytime.String t)])%list).
Proof.
  intros Hv Hd. cbv zeta.
  unfold daytime.Value, daytime.MarshalBinary, daytime.bytesOfString.
  cbn [fst]. rewrite Scan_string_run, Scan_bytes_run.
  rewrite !(decodeRun_String t _ st d Hv Hd). auto.
Qed.

Lemma Value_Scan_roundtrip_witness :
  daytime.Scan (fst (daytime.Value (Some (daytime.mkDayTime 1 2 3))))
               (daytime.mkStore (Some daytime.zeroDayTime) []) =
  Returns (None, daytime.mkStore (Some (daytime.mkDayTime 1 2 3)) []).
Proof.
  refine (proj1
    (Value_Scan_roundtrip (Some (daytime.mkDayTime 1 2 3))
       (daytime.mkStore (Some daytime.zeroDayTime) [])
       daytime.zeroDayTime _ eq_refl)).
  unfold validReceiver, validDayTime, validTriple; cbn; lia.
Defined.

(** ** Where the anchored moments lie *)

Lemma same_date_same_day (days days' : Z) :
  time.civilFromDays days = time.civilFromDays days' -> days = days'.
Proof.
  intros H. pose proof (daysFromCivil_civilFromDays days) as Hd.
  pose proof (daysFromCivil_civilFromDays days') as Hd'.
  rewrite H in Hd. destruct (time.civilFromDays days') as [[y m] d].
  congruence.
Qed.

Lemma same_date_startOfDay (r1 r2 : time.Time) :
  time.DateOf r1 = time.DateOf r2 -> time.location r1 = time.location r2 ->
  startOfDay r1 = startOfDay r2.
Proof.
  unfold time.DateOf, startOfDay. intros Hdate Hloc.
  apply same_date_same_day in Hdate. now rewrite Hdate, Hloc.
Qed.

Lemma startOfDay_bounds (now : time.Time) :
  startOfDay now <= time.unixNano now < startOfDay now + daytime.Day.
Proof.
  unfold startOfDay, time.wallSeconds, time.secondsPerDay, daytime.Day,
    time.Hour, time.Minute, time.Second, time.Nanosecond.
  Z.to_euclidean_division_equations; lia.
Qed.

Lemma onTheDateOf_unixNano (now : time.Time) (t : option daytime.DayTime) :
  time.unixNano (onTheDateOf now t) =
  startOfDay now +
  (let '(h, m, s) := timeOfDay t in h * 3600 + m * 60 + s) * time.Second.
Proof.
  unfold onTheDateOf, startOfDay.
  pose proof (daysFromCivil_civilFromDays
                (time.wallSeconds now / time.secondsPerDay)) as Hdays.
  unfold time.DateOf.
  destruct (time.civilFromDays _) as [[year month] day].
  destruct t as [t|]; cbn [timeOfDay time.Date time.unixNano];
    rewrite Hdays; unfold time.Second, time.Nanosecond; lia.
Qed.

Lemma timeOfDay_bounds (t : option daytime.DayTime) :
  validReceiver t ->
  0 <= (let '(h, m, s) := timeOfDay t in h * 3600 + m * 60 + s) < 86400.
Proof.
  destruct t as [t|]; cbn [validReceiver timeOfDay]; [|lia].
  unfold validDayTime, validTriple. lia.
Qed.

(** The result of [Time()] lies within the calendar day of the moment it
    reads. *)
Lemma onTheDateOf_within_day (now : time.Time) (t : option daytime.DayTime) :
  validReceiver t ->
  startOfDay now <= time.unixNano (onTheDateOf now t)
                 < startOfDay now + daytime.Day.
Proof.
  intros Hv. rewrite onTheDateOf_unixNano.
  pose proof (timeOfDay_bounds t Hv) as Hb.
  destruct (timeOfDay t) as [[h m] s].
  unfold daytime.Day, time.Hour, time.Minute, time.Second, time.Nanosecond.
  lia.
Qed.

Lemma onTheDateOf_receiver (now : time.Time) (t : option daytime.DayTime) :
  validReceiver t ->
  time.DateOf (onTheDateOf now t) = time.DateOf now /\
  time.ClockOf (onTheDateOf now t) = timeOfDay t /\
  time.NanosecondOf (onTheDateOf now t) = 0 /\
  time.location (onTheDateOf now t) = time.location now.
Proof.
  intros Hv. destruct t as [[h m s]|].
  - exact (onTheDateOf_valid now h m s Hv).
  - rewrite onTheDateOf_nil.
    apply (onTheDateOf_valid now 0 0 0). unfold validTriple. lia.
Qed.

(** X9. [Time()] returns, for a time of day [h:m:s] (or [00:00:00] for a
    nil receiver), the moment with the calendar date of its clock reading,
    the wall clock [h:m:s], no fraction of a second, and the zone of the
    reading. *)
Theorem Time_on_current_date (t : option daytime.DayTime) (c : time.Clock) :
  validReceiver t ->
  let now := time.reading c (time.reads c) in
  let result := fst (daytime.Time t c) in
  time.DateOf result = time.DateOf now /\
  time.ClockOf result = timeOfDay t /\
  time.NanosecondOf result = 0 /\
  time.location result = time.location now.
Proof.
  intros Hv. cbv zeta. rewrite Time_run. cbn [fst].
  now apply onTheDateOf_receiver.
Qed.

Lemma Time_on_current_date_witness :
  time.DateOf
    (fst (daytime.Time (Some (daytime.mkDayTime 23 59 59)) steadyClock)) =
  (2026, 10, 31) /\
  time.ClockOf
    (fst (daytime.Time (Some (daytime.mkDayTime 23 59 59)) steadyClock)) =
  (23, 59, 59).
Proof.
  assert (Hv : validReceiver (Some (daytime.mkDayTime 23 59 59)))
    by (unfold validReceiver, validDayTime, validTriple; cbn; lia).
  pose proof (Time_on_current_date
                (Some (daytime.mkDayTime 23 59 59)) steadyClock Hv) as H.
  cbv zeta in H. destruct H as (Hdate & Hclock & _).
  split; [exact Hdate | exact Hclock].
Defined.

Lemma ClockOf_Add_Day (x : time.Time) :
  time.ClockOf (time.Add x daytime.Day) = time.ClockOf x /\
  time.ClockOf (time.Add x (- daytime.Day)) = time.ClockOf x.
Proof.
  unfold time.ClockOf, time.wallSeconds, time.Add.
  cbn [time.unixNano time.location].
  unfold daytime.Day, time.Hour, time.Minute, time.Second, time.Nanosecond,
    time.secondsPerDay.
  set (off := time.offset (time.location x)).
  replace ((time.unixNano x + 24 * (60 * (60 * (1000000000 * 1)))) /
           (1000000000 * 1) + off)
    with (time.unixNano x / (1000000000 * 1) + off + 1 * 86400)
    by (Z.to_euclidean_division_equations; lia).
  replace ((time.unixNano x + - (24 * (60 * (60 * (1000000000 * 1))))) /
           (1000000000 * 1) + off)
    with (time.unixNano x / (1000000000 * 1) + off + (-1) * 86400)
    by (Z.to_euclidean_division_equations; lia).
  now rewrite !Z.mod_add by lia.
Qed.

Lemma NanosecondOf_Add_Day (x : time.Time) :
  time.NanosecondOf (time.Add x daytime.Day) = time.NanosecondOf x /\
  time.NanosecondOf (time.Add x (- daytime.Day)) = time.NanosecondOf x.
Proof.
  unfold time.NanosecondOf, time.Add. cbn [time.unixNano].
  unfold daytime.Day, time.Hour, time.Minute, time.Second, time.Nanosecond.
  split; Z.to_euclidean_division_equations; lia.
Qed.

(** X10. [InTheNearFuture] and [InTheRecentPast] return a moment whose
    wall clock is the receiver's time of day, without a fraction of a
    second, in the zone of the clock reading that their call of [Time()]
    takes: the shift by a day keeps the time of day. *)
Theorem anchoring_keeps_time_of_day
    (t : option daytime.DayTime) (c : time.Clock) :
  validReceiver t ->
  let zone := time.location (time.reading c (S (time.reads c))) in
  let future := fst (daytime.InTheNearFuture t c) in
  let past := fst (daytime.InTheRecentPast t c) in
  (time.ClockOf future = timeOfDay t /\ time.NanosecondOf future = 0 /\
   time.location future = zone) /\
  (time.ClockOf past = timeOfDay t /\ time.NanosecondOf past = 0 /\
   time.location past = zone).
Proof.
  intros Hv. cbv zeta.
  pose proof (onTheDateOf_receiver (time.reading c (S (time.reads c))) t Hv)
    as (_ & Hclock & Hnano & Hzone).
  rewrite InTheNearFuture_run, InTheRecentPast_run. cbv zeta. cbn [fst].
  rewrite Time_run. cbn [fst time.Now snd time.reading time.reads].
  set (datetime := onTheDateOf (time.reading c (S (time.reads c))) t) in *.
  destruct (ClockOf_Add_Day datetime) as [Hc1 Hc2].
  destruct (NanosecondOf_Add_Day datetime) as [Hn1 Hn2].
  split.
  - destruct (time.Before datetime _); [|auto].
    rewrite Hc1, Hn1. auto.
  - destruct (time.After datetime _); [|auto].
    rewrite Hc2, Hn2. auto.
Qed.

Lemma anchoring_keeps_time_of_day_witness :
  time.ClockOf
    (fst (daytime.InTheNearFuture (Some (daytime.mkDayTime 0 0 0))
                                  steadyClock)) = (0, 0, 0) /\
  time.ClockOf
    (fst (daytime.InTheRecentPast (Some (daytime.mkDayTime 12 30 0))
                                  steadyClock)) = (12, 30, 0).
Proof.
  split.
  - refine (proj1 (proj1 (anchoring_keeps_time_of_day
             (Some (daytime.mkDayTime 0 0 0)) steadyClock _))).
    unfold validReceiver, validDayTime, validTriple; cbn; lia.
  - refine (proj1 (proj2 (anchoring_keeps_time_of_day
             (Some (daytime.mkDayTime 12 30 0)) steadyClock _))).
    unfold validReceiver, validDayTime, validTriple; cbn; lia.
Defined.

Lemma validReceiver_example (h m s : Z) :
  validTriple h m s -> validReceiver (Some (daytime.mkDayTime h m s)).
Proof. intros H. exact H. Qed.

(** X11. In a zone with a fixed offset from UTC (the zones that the model
    of [time.Location] covers; a zone with daylight-saving transitions is
    not): when the clock does not run backwards between the two readings
    that [InTheNearFuture] takes, its result is never before the first one
    (the [now] of the method) and less than 24 hours after the second one,
    also when midnight passes between the readings. *)
Theorem InTheNearFuture_not_past
    (t : option daytime.DayTime) (c : time.Clock) :
  validReceiver t ->
  let now := time.reading c (time.reads c) in
  let now' := time.reading c (S (time.reads c)) in
  let future := fst (daytime.InTheNearFuture t c) in
  time.unixNano now <= time.unixNano now' ->
  time.unixNano now <= time.unixNano future
                    < time.unixNano now' + daytime.Day.
Proof.
  intros Hv. cbv zeta. intros Hmono.
  rewrite InTheNearFuture_run. cbv zeta. rewrite Time_run.
  cbn [fst snd time.Now time.reading time.reads].
  pose proof (startOfDay_bounds (time.reading c (S (time.reads c)))) as Hnow'.
  pose proof (onTheDateOf_within_day
                (time.reading c (S (time.reads c))) t Hv) as Hday.
  unfold time.Before.
  destruct (Z.ltb_spec
              (time.unixNano
                 (onTheDateOf (time.reading c (S (time.reads c))) t))
              (time.unixNano (time.reading c (time.reads c))));
    cbn [time.Add time.unixNano]; lia.
Qed.

Lemma InTheNearFuture_not_past_witness :
  time.unixNano justBeforeMidnight <=
  time.unixNano
    (fst (daytime.InTheNearFuture (Some (daytime.mkDayTime 23 59 59))
                                  passingMidnightClock))
  < time.unixNano justAfterMidnight + daytime.Day.
Proof.
  refine (InTheNearFuture_not_past (Some (daytime.mkDayTime 23 59 59))
                                   passingMidnightClock _ _).
  - apply validReceiver_example. unfold validTriple. lia.
  - cbn. lia.
Defined.

(** X12. In a zone with a fixed offset from UTC (the zones that the model
    of [time.Location] covers; a zone with daylight-saving transitions is
    not): when the two readings that the methods take fall on the same
    calendar date of the same zone (as they do when they are the same
    moment), [InTheNearFuture] returns a moment from [now] on and less than
    24 hours later, and [InTheRecentPast] a moment up to [now] and less than
    24 hours earlier, [now] being the first reading. *)
Theorem anchoring_within_a_day (t : option daytime.DayTime) (c : time.Clock) :
  validReceiver t ->
  let now := time.reading c (time.reads c) in
  let now' := time.reading c (S (time.reads c)) in
  let future := fst (daytime.InTheNearFuture t c) in
  let past := fst (daytime.InTheRecentPast t c) in
  time.DateOf now = time.DateOf now' ->
  time.location now = time.location now' ->
  time.unixNano now <= time.unixNano future
                    < time.unixNano now + daytime.Day /\
  time.unixNano now - daytime.Day < time.unixNano past
                                  <= time.unixNano now.
Proof.
  intros Hv. cbv zeta. intros Hdate Hzone.
  rewrite InTheNearFuture_run, InTheRecentPast_run. cbv zeta. rewrite Time_run.
  cbn [fst snd time.Now time.reading time.reads].
  pose proof (startOfDay_bounds (time.reading c (time.reads c))) as Hnow.
  pose proof (onTheDateOf_within_day
                (time.reading c (S (time.reads c))) t Hv) as Hday.
  rewrite <- (same_date_startOfDay _ _ Hdate Hzone) in Hday.
  unfold time.Before, time.After.
  destruct (Z.ltb_spec
              (time.unixNano
                 (onTheDateOf (time.reading c (S (time.reads c))) t))
              (time.unixNano (time.reading c (time.reads c))));
    destruct (Z.gtb_spec
                (time.unixNano
                   (onTheDateOf (time.reading c (S (time.reads c))) t))
                (time.unixNano (time.reading c (time.reads c))));
    cbn [time.Add time.unixNano]; lia.
Qed.

Lemma anchoring_within_a_day_witness :
  time.unixNano justAfterMidnight <=
  time.unixNano
    (fst (daytime.InTheNearFuture (Some (daytime.mkDayTime 0 0 0))
                                  steadyClock))
  < time.unixNano justAfterMidnight + daytime.Day /\
  time.unixNano justAfterMidnight - daytime.Day <
  time.unixNano
    (fst (daytime.InTheRecentPast (Some (daytime.mkDayTime 0 0 0))
                                  steadyClock))
  <= time.unixNano justAfterMidnight.
Proof.
  refine (anchoring_within_a_day (Some (daytime.mkDayTime 0 0 0))
                                 steadyClock _ eq_refl eq_refl).
  apply validReceiver_example. unfold validTriple. lia.
Defined.

(** X13. Taken on the same clock readings, the near future and the recent
    past of a receiver are the same moment when its time today is exactly
    [now], and exactly 24 hours apart otherwise. *)
Theorem anchors_one_day_apart (t : option daytime.DayTime) (c : time.Clock) :
  let now := fst (time.Now c) in
  let datetime := fst (daytime.Time t (snd (time.Now c))) in
  let future := fst (daytime.InTheNearFuture t c) in
  let past := fst (daytime.InTheRecentPast t c) in
  (time.unixNano datetime = time.unixNano now -> future = past) /\
  (time.unixNano datetime <> time.unixNano now ->
   time.unixNano future = time.unixNano past + daytime.Day).
Proof.
  cbv zeta. rewrite InTheNearFuture_run, InTheRecentPast_run. cbv zeta.
  cbn [fst]. unfold time.Before, time.After.
  set (now := fst (time.Now c)).
  set (datetime := fst (daytime.Time t (snd (time.Now c)))).
  destruct (Z.ltb_spec (time.unixNano datetime) (time.unixNano now)),
    (Z.gtb_spec (time.unixNano datetime) (time.unixNano now));
    split; intros; try lia; try reflexivity;
    cbn [time.Add time.unixNano]; lia.
Qed.

(** ** What the decoders print *)

Lemma decodeRun_stdout
    (text : string) (out : list string) (st : daytime.Store) :
  exists err st',
    decodeRun text out st = Returns (err, st') /\
    daytime.stdout st' =
    match daytime.target st with
    | None => daytime.stdout st
    | Some _ => out
    end.
Proof.
  unfold decodeRun. destruct (daytime.target st) as [d|]; [|eauto].
  destruct (Parse_returns text) as (value & [e|] & ->); eauto.
Qed.

(** X14. The four [Unmarshal] methods and [Scan] of a string never write
    to the standard output.  [Scan] of bytes writes one line, the text
    between quotes after [str(bytes) = ], whenever its target is present,
    also when the text does not parse; on a nil target it writes nothing. *)
Theorem decode_output (text : string) (st : daytime.Store) :
  (forall decode,
      In decode [daytime.UnmarshalBinary text; daytime.UnmarshalText text;
                 daytime.UnmarshalJSON text; daytime.UnmarshalCSV text;
                 daytime.Scan (AnyString text)] ->
      exists err st',
        decode st = Returns (err, st') /\
        daytime.stdout st' = daytime.stdout st) /\
  (exists err st',
      daytime.Scan (AnyBytes text) st = Returns (err, st') /\
      daytime.stdout st' =
      match daytime.target st with
      | None => daytime.stdout st
      | Some _ =>
          (daytime.stdout st ++
           [("str(bytes) = '" ++ text ++ "'" ++ daytime.newline)%string])%list
      end).
Proof.
  split.
  - intros decode Hin.
    assert (Hrun : decode st = decodeRun text (daytime.stdout st) st).
    { cbn [In] in Hin.
      destruct Hin as [<- | [<- | [<- | [<- | [<- | []]]]]];
        first [ apply UnmarshalBinary_run | apply UnmarshalText_run
              | apply UnmarshalJSON_run | apply UnmarshalCSV_run
              | apply Scan_string_run ]. }
    rewrite Hrun.
    destruct (decodeRun_stdout text (daytime.stdout st) st)
      as (err & st' & -> & Hout).
    exists err, st'. split; [reflexivity|].
    rewrite Hout. now destruct (daytime.target st).
  - rewrite Scan_bytes_run. apply decodeRun_stdout.
Qed.
